(** * Weather backend: the request handlers of [src/api/main.py]

    A shallow embedding of the FastAPI application in
    [weather_backend/src/api/main.py]: the payload normaliser
    [_normalize_openweather_payload], the upstream client
    [_fetch_current_weather], the three route handlers and the route table,
    followed by the properties the specification states about them.

    Conventions.
    - A Python [str] is a Rocq [string] whose characters are read as the
      code points U+0000..U+00FF; text outside that range is not
      represented.
    - A Python [int] is a [Z]; a Python [float] is a binary64 value, a
      [spec_float] of the Standard Library with [prec = 53], [emax = 1024].
    - Python exceptions are values of [PyExc]; a computation that may raise
      returns a [Res]. *)

From Stdlib Require Import ZArith List String Ascii Bool Lia.
From Stdlib Require Import Floats.SpecFloat.
From Stdlib Require Import DecimalString.
Import ListNotations.

Set Warnings "-register-all".
Set Warnings "-notation-overridden".
Set Warnings "-notation-incompatible-prefix".

Local Open Scope string_scope.
Local Open Scope list_scope.
Local Open Scope Z_scope.

(* ================================================================== *)
(** * Python values and exceptions *)
(* ================================================================== *)

(** What [resp.json()] can return: the image of [json.loads]. A [dict] is
    kept as its list of items; lookup takes the first binding of a key. *)
Inductive PyVal : Type :=
| PNone
| PBool (b : bool)
| PInt (n : Z)
| PFloat (f : spec_float)
| PStr (s : string)
| PList (l : list PyVal)
| PDict (items : list (string * PyVal)).

(** The result of [str(v)]. For a [str] it is the text itself; for any other
    value the text is the interpreter's rendering of [v], which is kept
    symbolically. *)
Inductive PyText : Type :=
| Text (s : string)
| StrOf (v : PyVal).

(** The exceptions that occur in the module. [ValidationError] is
    pydantic's; [HTTPException] is FastAPI's, with its [status_code] and
    [detail]. *)
Inductive PyExc : Type :=
| KeyError
| IndexError
| TypeError
| ValueError
| OverflowError
| ValidationError
| HTTPException (status_code : Z) (detail : string).

Inductive Res (A : Type) : Type :=
| Ok (a : A)
| Err (e : PyExc).
Arguments Ok {A} a.
Arguments Err {A} e.

Definition res_bind {A B} (r : Res A) (k : A -> Res B) : Res B :=
  match r with
  | Ok a => k a
  | Err e => Err e
  end.

Notation "x <- r ;; k" := (res_bind r (fun x => k))
  (at level 61, r at next level, right associativity).
Notation "' pat <- r ;; k" :=
  (res_bind r (fun x => match x with pat => k end))
  (at level 61, pat pattern, r at next level, right associativity).

(** [try: body except classes: raise replacement]. *)
Definition try_except {A} (body : Res A) (classes : PyExc -> bool)
    (replacement : PyExc) : Res A :=
  match body with
  | Ok a => Ok a
  | Err e => if classes e then Err replacement else Err e
  end.

(* ================================================================== *)
(** * Text: whitespace and [str.strip] *)
(* ================================================================== *)

Definition code (c : ascii) : Z := Z.of_N (N_of_ascii c).

(** [str.isspace] on one character, for code points below 256. *)
Definition isspace (c : ascii) : bool :=
  let n := code c in
  ((9 <=? n) && (n <=? 13)) || ((28 <=? n) && (n <=? 32))
  || (n =? 133) || (n =? 160).

Fixpoint lstrip (l : list ascii) : list ascii :=
  match l with
  | c :: l' => if isspace c then lstrip l' else l
  | [] => []
  end.

Definition rstrip (l : list ascii) : list ascii := rev (lstrip (rev l)).

(** [s.strip()]. *)
Definition strip (s : string) : string :=
  string_of_list_ascii (rstrip (lstrip (list_ascii_of_string s))).

(** [str(n)] for an [int]. *)
Definition str_of_int (n : Z) : string := NilZero.string_of_int (Z.to_int n).

(* ================================================================== *)
(** * Numbers: [float(...)] and [int(...)] *)
(* ================================================================== *)

(** Binary64. *)
Definition prec : Z := 53.
Definition emax : Z := 1024.

(** Neither an infinity nor a NaN. *)
Definition finite (f : spec_float) : bool :=
  match f with
  | S754_zero _ | S754_finite _ _ _ => true
  | S754_infinity _ | S754_nan => false
  end.

(** [float(n)] for an [int]: the nearest binary64 value, ties to even;
    [OverflowError] when that is out of range. *)
Definition float_of_int (n : Z) : Res spec_float :=
  match binary_normalize prec emax n 0 false with
  | S754_infinity _ => Err OverflowError
  | f => Ok f
  end.

(** [int(x)] for a [float]: truncation toward zero; [ValueError] for a NaN,
    [OverflowError] for an infinity. *)
Definition int_of_float (f : spec_float) : Res Z :=
  match f with
  | S754_nan => Err ValueError
  | S754_infinity _ => Err OverflowError
  | S754_zero _ => Ok 0
  | S754_finite s m e =>
      let a := if 0 <=? e then Z.shiftl (Zpos m) e else Z.shiftr (Zpos m) (- e) in
      Ok (if s then - a else a)
  end.

(** ** Numeric literals in text *)

Definition is_digit (c : ascii) : bool :=
  let n := code c in (48 <=? n) && (n <=? 57).

Definition digit_value (c : ascii) : Z := code c - 48.

(** Whitespace the numeric constructors skip around a literal. *)
Definition isspace_numeric (c : ascii) : bool :=
  let n := code c in
  ((9 <=? n) && (n <=? 13)) || (n =? 32) || (n =? 133) || (n =? 160).

Fixpoint lstrip_numeric (l : list ascii) : list ascii :=
  match l with
  | c :: l' => if isspace_numeric c then lstrip_numeric l' else l
  | [] => []
  end.

Definition strip_numeric (l : list ascii) : list ascii :=
  rev (lstrip_numeric (rev (lstrip_numeric l))).

(** After one digit: [(["_"] digit)*]. Returns the digits read and the rest. *)
Fixpoint digitpart_rest (l : list ascii) : list ascii * list ascii :=
  match l with
  | c :: l' =>
      if is_digit c then
        let (ds, r) := digitpart_rest l' in (c :: ds, r)
      else if Ascii.eqb c "_" then
        match l' with
        | d :: l'' =>
            if is_digit d then
              let (ds, r) := digitpart_rest l'' in (d :: ds, r)
            else ([], l)
        | [] => ([], l)
        end
      else ([], l)
  | [] => ([], [])
  end.

(** [digitpart ::= digit (["_"] digit)*]. *)
Definition digitpart (l : list ascii) : option (list ascii * list ascii) :=
  match l with
  | c :: l' =>
      if is_digit c then
        let (ds, r) := digitpart_rest l' in Some (c :: ds, r)
      else None
  | [] => None
  end.

Definition digits_value (ds : list ascii) : Z :=
  fold_left (fun acc c => 10 * acc + digit_value c) ds 0.

(** [[sign]]: whether a minus was read, and the rest. *)
Definition sign_opt (l : list ascii) : bool * list ascii :=
  match l with
  | c :: l' =>
      if Ascii.eqb c "-" then (true, l')
      else if Ascii.eqb c "+" then (false, l')
      else (false, l)
  | [] => (false, [])
  end.

(** The interpreter's default limit on the digits of an integer literal
    ([sys.int_info.default_max_str_digits]). *)
Definition int_max_str_digits : nat := 4300.

(** [int(s)] for a [str], base 10; [None] is [ValueError]. *)
Definition int_of_str (s : string) : option Z :=
  let (neg, l) := sign_opt (strip_numeric (list_ascii_of_string s)) in
  match digitpart l with
  | Some (ds, []) =>
      if Nat.ltb int_max_str_digits (List.length ds) then None
      else Some (if neg then - digits_value ds else digits_value ds)
  | _ => None
  end.

Definition lower (c : ascii) : ascii :=
  let n := code c in
  if (65 <=? n) && (n <=? 90) then ascii_of_N (Z.to_N (n + 32)) else c.

(** The value [m * 10^e] rounded to binary64, for [m > 0]. *)
Definition round_decimal (neg : bool) (m : Z) (e : Z) : spec_float :=
  if 0 <=? e then
    binary_normalize prec emax ((if neg then - m else m) * 10 ^ e) 0 false
  else
    let '(q, e', l) := SFdiv_core_binary prec emax m 0 (10 ^ (- e)) 0 in
    binary_round_aux prec emax neg q e' l.

(** [[exponent]]: the exponent read, and the rest; [None] when an exponent
    marker is not followed by a [digitpart]. *)
Definition exponent_opt (l : list ascii) : option (Z * list ascii) :=
  match l with
  | c :: l' =>
      if Ascii.eqb (lower c) "e" then
        let (neg, l'') := sign_opt l' in
        match digitpart l'' with
        | Some (ds, r) => Some (if neg then - digits_value ds else digits_value ds, r)
        | None => None
        end
      else Some (0, l)
  | [] => Some (0, [])
  end.

(** [number ::= [digitpart] "." digitpart | digitpart ["."]]: the integer
    digits, the fraction digits, and the rest. *)
Definition number (l : list ascii) : option (list ascii * list ascii * list ascii) :=
  match digitpart l with
  | Some (ip, r) =>
      match r with
      | c :: r' =>
          if Ascii.eqb c "." then
            match digitpart r' with
            | Some (fp, r'') => Some (ip, fp, r'')
            | None => Some (ip, [], r')
            end
          else Some (ip, [], r)
      | [] => Some (ip, [], [])
      end
  | None =>
      match l with
      | c :: r' =>
          if Ascii.eqb c "." then
            match digitpart r' with
            | Some (fp, r'') => Some ([], fp, r'')
            | None => None
            end
          else None
      | [] => None
      end
  end.

(** [float(s)] for a [str]; [None] is [ValueError]. *)
Definition float_of_str (s : string) : option spec_float :=
  let (neg, l) := sign_opt (strip_numeric (list_ascii_of_string s)) in
  let word := string_of_list_ascii (map lower l) in
  if String.eqb word "inf" || String.eqb word "infinity" then
    Some (S754_infinity neg)
  else if String.eqb word "nan" then Some S754_nan
  else
    match number l with
    | Some (ip, fp, r) =>
        match exponent_opt r with
        | Some (ex, []) =>
            let m := digits_value (ip ++ fp) in
            if m =? 0 then Some (S754_zero neg)
            else Some (round_decimal neg m (ex - Z.of_nat (List.length fp)))
        | _ => None
        end
    | None => None
    end.

(** ** The constructors on a JSON value *)

(** [float(v)]. *)
Definition py_float (v : PyVal) : Res spec_float :=
  match v with
  | PFloat f => Ok f
  | PInt n => float_of_int n
  | PBool b => float_of_int (if b then 1 else 0)
  | PStr s =>
      match float_of_str s with
      | Some f => Ok f
      | None => Err ValueError
      end
  | PNone | PList _ | PDict _ => Err TypeError
  end.

(** [int(v)]. *)
Definition py_int (v : PyVal) : Res Z :=
  match v with
  | PInt n => Ok n
  | PBool b => Ok (if b then 1 else 0)
  | PFloat f => int_of_float f
  | PStr s =>
      match int_of_str s with
      | Some n => Ok n
      | None => Err ValueError
      end
  | PNone | PList _ | PDict _ => Err TypeError
  end.

(** [str(v)]. *)
Definition py_str (v : PyVal) : PyText :=
  match v with
  | PStr s => Text s
  | _ => StrOf v
  end.

(** ** Subscription: [v[k]] *)

Inductive Key : Type :=
| KStr (k : string)
| KInt (i : Z).

Fixpoint dict_get (items : list (string * PyVal)) (k : string) : option PyVal :=
  match items with
  | (k', v) :: rest => if String.eqb k' k then Some v else dict_get rest k
  | [] => None
  end.

(** Sequence indexing with Python's negative indices. *)
Definition seq_index {A} (l : list A) (i : Z) : option A :=
  let n := Z.of_nat (List.length l) in
  let j := if i <? 0 then i + n else i in
  if (0 <=? j) && (j <? n) then nth_error l (Z.to_nat j) else None.

(** [v[k]]: a [dict] raises [KeyError] on an absent key (its keys are all
    [str]), a [list] or [str] raises [IndexError] out of range and
    [TypeError] on a [str] subscript, the other values are not
    subscriptable. *)
Definition getitem (v : PyVal) (k : Key) : Res PyVal :=
  match v, k with
  | PDict items, KStr s =>
      match dict_get items s with
      | Some x => Ok x
      | None => Err KeyError
      end
  | PDict _, KInt _ => Err KeyError
  | PList l, KInt i =>
      match seq_index l i with
      | Some x => Ok x
      | None => Err IndexError
      end
  | PList _, KStr _ => Err TypeError
  | PStr s, KInt i =>
      match seq_index (list_ascii_of_string s) i with
      | Some c => Ok (PStr (String c EmptyString))
      | None => Err IndexError
      end
  | PStr _, KStr _ => Err TypeError
  | (PNone | PBool _ | PInt _ | PFloat _), _ => Err TypeError
  end.

(* ================================================================== *)
(** * The response model and the normaliser *)
(* ================================================================== *)

(** [class WeatherResponse(BaseModel)]. *)
Record WeatherResponse : Type := {
  city : string;
  temperature : spec_float;
  humidity : Z;
  description : PyText
}.

(** Validation of a field annotated [str], as pydantic 2 does it: only a
    [str] passes. ([None], a list or a mapping is refused by every
    version.) *)
Definition validate_str (v : PyVal) : Res string :=
  match v with
  | PStr s => Ok s
  | _ => Err ValidationError
  end.

(** The constructor [WeatherResponse(city=, temperature=, humidity=,
    description=)]: [temperature], [humidity] and [description] arrive as a
    [float], an [int] and a [str] and pass; [city] arrives unconverted. *)
Definition new_WeatherResponse (c : PyVal) (t : spec_float) (h : Z)
    (d : PyText) : Res WeatherResponse :=
  c' <- validate_str c ;;
  Ok {| city := c'; temperature := t; humidity := h; description := d |}.

(** [except (KeyError, IndexError, TypeError, ValueError)]. *)
Definition format_errors (e : PyExc) : bool :=
  match e with
  | KeyError | IndexError | TypeError | ValueError => true
  | _ => false
  end.

Definition unexpected_format : PyExc :=
  HTTPException 502 "Upstream response format from OpenWeatherMap was unexpected.".

(** The body of the [try] block: the four extractions, in order. *)
Definition extract_fields (payload : PyVal)
    : Res (PyVal * spec_float * Z * PyText) :=
  c <- getitem payload (KStr "name") ;;
  m <- getitem payload (KStr "main") ;;
  t0 <- getitem m (KStr "temp") ;;
  t <- py_float t0 ;;
  m' <- getitem payload (KStr "main") ;;
  h0 <- getitem m' (KStr "humidity") ;;
  h <- py_int h0 ;;
  w <- getitem payload (KStr "weather") ;;
  w0 <- getitem w (KInt 0) ;;
  d0 <- getitem w0 (KStr "description") ;;
  Ok (c, t, h, py_str d0).

Definition _normalize_openweather_payload (payload : PyVal)
    : Res WeatherResponse :=
  '(c, t, h, d) <- try_except (extract_fields payload) format_errors
                     unexpected_format ;;
  new_WeatherResponse c t h d.

(* ================================================================== *)
(** * Effects: the environment and the outbound HTTP client *)
(* ================================================================== *)

(** One [client.get(url, params=params)] on an [httpx.AsyncClient(timeout=)]. *)
Record HttpRequest : Type := {
  url : string;
  params : list (string * string);
  timeout : spec_float
}.

(** What the handler reads of [resp]: [resp.status_code], and [resp.json()],
    which is [None] here when it raises [ValueError]. *)
Record HttpResponse : Type := {
  status_code : Z;
  json : option PyVal
}.

(** The call either raises [httpx.RequestError] or returns a response. *)
Inductive GetResult : Type :=
| RequestError
| Response (resp : HttpResponse).

(** A handler: a computation that reads environment variables and issues
    outbound requests before it returns or raises. *)
Inductive Prog (A : Type) : Type :=
| Done (r : Res A)
| Getenv (name : string) (k : option string -> Prog A)
| ClientGet (req : HttpRequest) (k : GetResult -> Prog A).
Arguments Done {A} r.
Arguments Getenv {A} name k.
Arguments ClientGet {A} req k.

Definition raise {A} (e : PyExc) : Prog A := Done (Err e).

(** The world a request runs in: the process environment, and the answer
    of the network to the [n]-th outbound call. *)
Record World : Type := {
  environ : string -> option string;
  network : nat -> HttpRequest -> GetResult
}.

(** Runs a handler; returns the outbound calls made, in order, and the
    result. *)
Fixpoint run {A} (w : World) (p : Prog A) (calls : list HttpRequest)
    : list HttpRequest * Res A :=
  match p with
  | Done r => (calls, r)
  | Getenv name k => run w (k (environ w name)) calls
  | ClientGet req k =>
      run w (k (network w (List.length calls) req)) (calls ++ [req])
  end.

(** [x] when it is truthy: a [str] that is not empty. [None] and the empty
    text are falsy. *)
Definition truthy (x : option string) : option string :=
  match x with
  | Some s => if String.eqb s "" then None else Some s
  | None => None
  end.

(* ================================================================== *)
(** * The upstream client *)
(* ================================================================== *)

Definition OPENWEATHER_CURRENT_URL : string :=
  "https://api.openweathermap.org/data/2.5/weather".

(** [10.0] *)
Definition ten_seconds : spec_float := S754_finite false 5629499534213120 (-49).

Definition _fetch_current_weather (city api_key : string)
    : Prog WeatherResponse :=
  let params := [("q", city); ("appid", api_key); ("units", "metric")] in
  ClientGet
    {| url := OPENWEATHER_CURRENT_URL; params := params; timeout := ten_seconds |}
    (fun got =>
       match got with
       | RequestError =>
           raise (HTTPException 502 "Failed to reach OpenWeatherMap.")
       | Response resp =>
           if status_code resp =? 404 then
             raise (HTTPException 404 "City not found.")
           else if 400 <=? status_code resp then
             raise (HTTPException 502
                      ("OpenWeatherMap returned an error (status "
                         ++ str_of_int (status_code resp) ++ ")."))
           else
             match json resp with
             | None =>
                 raise (HTTPException 502 "OpenWeatherMap returned invalid JSON.")
             | Some payload => Done (_normalize_openweather_payload payload)
             end
       end).

(* ================================================================== *)
(** * The route handlers *)
(* ================================================================== *)

(** The handlers as they run once the framework calls them. (The framework
    validates a request first, from the declarations [Query(..., min_length=1)]
    and [Field(..., min_length=1)]; that step is not part of this model.)
    The city is [None] for Python's [None], which both guards tolerate. *)

(** [class WeatherRequest(BaseModel)]. *)
Module WeatherRequest.
Record t : Type := { city : option string }.
End WeatherRequest.

Definition health_check : list (string * string) := [("message", "Healthy")].

Definition key_not_configured : PyExc :=
  HTTPException 500 "OPENWEATHER_API_KEY is not configured on the server.".

Definition get_weather (city : option string) : Prog WeatherResponse :=
  Getenv "OPENWEATHER_API_KEY" (fun api_key =>
    match truthy api_key with
    | None => raise key_not_configured
    | Some api_key =>
        match truthy city with
        | None =>
            raise (HTTPException 400 "Missing required parameter: city.")
        | Some city =>
            if String.eqb (strip city) "" then
              raise (HTTPException 400 "Missing required parameter: city.")
            else _fetch_current_weather (strip city) api_key
        end
    end).

Definition post_weather (payload : WeatherRequest.t) : Prog WeatherResponse :=
  Getenv "OPENWEATHER_API_KEY" (fun api_key =>
    match truthy api_key with
    | None => raise key_not_configured
    | Some api_key =>
        let city :=
          strip (match truthy (WeatherRequest.city payload) with
                 | Some c => c
                 | None => ""
                 end) in
        if String.eqb city "" then
          raise (HTTPException 400 "Missing required field: city.")
        else _fetch_current_weather city api_key
    end).

(* ================================================================== *)
(** * The application: replies and routes *)
(* ================================================================== *)

Inductive Body : Type :=
| WeatherJson (w : WeatherResponse)
| WeatherJsonNull (city : string) (humidity : Z) (description : PyText)
| ObjectJson (o : list (string * string))
| TextBody (s : string)
| NoBody.

Record HttpReply : Type := {
  status : Z;
  body : Body
}.

(** The JSON form of a [WeatherResponse]: its four members, the temperature
    as a number when it is finite. An infinite or NaN temperature has no
    JSON number: the member is then written [null] ([WeatherJsonNull]). *)
Definition weather_body (w : WeatherResponse) : Body :=
  if finite (temperature w) then WeatherJson w
  else WeatherJsonNull (city w) (humidity w) (description w).

(** The reply FastAPI builds from what a weather handler returned or
    raised: the model as JSON with 200, an [HTTPException] as its status and
    [{"detail": ...}], any other exception as a plain 500. *)
Definition respond (r : Res WeatherResponse) : option HttpReply :=
  match r with
  | Ok w => Some {| status := 200; body := weather_body w |}
  | Err (HTTPException s d) =>
      Some {| status := s; body := ObjectJson [("detail", d)] |}
  | Err _ => Some {| status := 500; body := TextBody "Internal Server Error" |}
  end.

(** The reply to a request handled by [p] in world [w]. *)
Definition reply_of (w : World) (p : Prog WeatherResponse) : option HttpReply :=
  respond (snd (run w p [])).

(** The outbound calls made while [p] handles a request in world [w]. *)
Definition calls_of (w : World) (p : Prog WeatherResponse) : list HttpRequest :=
  fst (run w p []).

Inductive Endpoint : Type :=
| openapi_endpoint
| swagger_ui_endpoint
| swagger_ui_redirect_endpoint
| redoc_endpoint
| health_check_endpoint
| get_weather_endpoint
| post_weather_endpoint.

(** The routes of [app]: the documentation routes [FastAPI(...)] installs
    (plain routes, which also answer HEAD), then the three decorated
    functions, with the method and path of each decorator. *)
Definition routes : list (string * string * Endpoint) :=
  [ ("GET", "/openapi.json", openapi_endpoint);
    ("HEAD", "/openapi.json", openapi_endpoint);
    ("GET", "/docs", swagger_ui_endpoint);
    ("HEAD", "/docs", swagger_ui_endpoint);
    ("GET", "/docs/oauth2-redirect", swagger_ui_redirect_endpoint);
    ("HEAD", "/docs/oauth2-redirect", swagger_ui_redirect_endpoint);
    ("GET", "/redoc", redoc_endpoint);
    ("HEAD", "/redoc", redoc_endpoint);
    ("GET", "/", health_check_endpoint);
    ("GET", "/weather", get_weather_endpoint);
    ("POST", "/weather", post_weather_endpoint) ].

Inductive Resolution : Type :=
| Routed (e : Endpoint)
| MethodNotAllowed
| RedirectSlashes (path : string)
| NotFound.

Definition newline : string := String (ascii_of_nat 10) "".

(** A route's pattern against a request path. None of the routes has a
    parameter, so the pattern is the route's path between [^] and [$]; and
    [$] matches at the end of the path or before a newline that ends it. *)
Definition path_matches (route path : string) : bool :=
  String.eqb path route || String.eqb path (route ++ newline)%string.

(** The first route that matches in full, path and method. *)
Fixpoint find_route (rs : list (string * string * Endpoint))
    (method path : string) : option Endpoint :=
  match rs with
  | (m, p, e) :: rs' =>
      if path_matches p path && String.eqb m method then Some e
      else find_route rs' method path
  | [] => None
  end.

(** Some route matches the path, whatever its method. *)
Definition path_known (rs : list (string * string * Endpoint)) (path : string)
    : bool :=
  existsb (fun r => path_matches (snd (fst r)) path) rs.

(** [path.rstrip("/")]. *)
Fixpoint lstrip_slashes (l : list ascii) : list ascii :=
  match l with
  | c :: l' => if Ascii.eqb c "/" then lstrip_slashes l' else l
  | [] => []
  end.

(** The path the router tries next: without its trailing slashes when it
    ends with one, with a slash added otherwise. *)
Definition toggle_slash (path : string) : string :=
  match rev (list_ascii_of_string path) with
  | c :: l =>
      if Ascii.eqb c "/" then string_of_list_ascii (rev (lstrip_slashes l))
      else (path ++ "/")%string
  | [] => "/"
  end.

(** The router: a route whose path and method match; else 405 when only the
    path matches; else a redirect when the path matches with its trailing
    slash toggled; else 404. *)
Definition resolve (method path : string) : Resolution :=
  match find_route routes method path with
  | Some e => Routed e
  | None =>
      if path_known routes path then MethodNotAllowed
      else if negb (String.eqb path "/") && path_known routes (toggle_slash path)
      then RedirectSlashes (toggle_slash path)
      else NotFound
  end.

(** The reply to a request that carries no parameters, where it does not
    depend on the world: [None] for the endpoints that read their input. *)
Definition serve_plain (method path : string) : option HttpReply :=
  match resolve method path with
  | Routed health_check_endpoint =>
      Some {| status := 200; body := ObjectJson health_check |}
  | Routed _ => None
  | MethodNotAllowed =>
      Some {| status := 405; body := ObjectJson [("detail", "Method Not Allowed")] |}
  | RedirectSlashes _ => Some {| status := 307; body := NoBody |}
  | NotFound =>
      Some {| status := 404; body := ObjectJson [("detail", "Not Found")] |}
  end.

(* ================================================================== *)
(** * Vocabulary of the specification *)
(* ================================================================== *)

(** The API key is configured: the variable is set, and not to the empty
    text. *)
Definition configured (w : World) (key : string) : Prop :=
  environ w "OPENWEATHER_API_KEY" = Some key /\ key <> "".

(** The network answers the first outbound call with [got]. *)
Definition answers (w : World) (got : GetResult) : Prop :=
  forall req, network w 0%nat req = got.

(** [needle] occurs in [hay]. *)
Definition contains (hay needle : string) : Prop :=
  exists pre post, hay = (pre ++ needle ++ post)%string.

(** Empty, or made of whitespace only. *)
Definition blank (s : string) : Prop :=
  forallb isspace (list_ascii_of_string s) = true.

(** The reply that carries an error message. *)
Definition error_reply (st : Z) (detail : string) : HttpReply :=
  {| status := st; body := ObjectJson [("detail", detail)] |}.

(** A world for the examples: the variable [OPENWEATHER_API_KEY] has the
    value [key], and every outbound call is answered [got]. *)
Definition world (key : option string) (got : GetResult) : World :=
  {| environ := fun name =>
       if String.eqb name "OPENWEATHER_API_KEY" then key else None;
     network := fun _ _ => got |}.

(** The outbound request for [city] with [api_key]. *)
Definition weather_query (city api_key : string) : HttpRequest :=
  {| url := "https://api.openweathermap.org/data/2.5/weather";
     params := [("q", city); ("appid", api_key); ("units", "metric")];
     timeout := ten_seconds |}.

(** What the upstream client's two other failures are: the call raised, or
    the response has a status below 400 and a body that is not JSON. *)
Definition unreachable_or_malformed (got : GetResult) : Prop :=
  match got with
  | RequestError => True
  | Response resp => status_code resp < 400 /\ json resp = None
  end.

(** ** The shape of a payload *)

(** A step into a JSON document: a member of an object, or an element of
    an array. *)
Inductive Step : Type :=
| Member (name : string)
| Element (i : nat).

(** The value found in document [v] along [path], when every step exists. *)
Fixpoint field (v : PyVal) (path : list Step) : option PyVal :=
  match path with
  | [] => Some v
  | Member k :: rest =>
      match v with
      | PDict items =>
          match dict_get items k with
          | Some x => field x rest
          | None => None
          end
      | _ => None
      end
  | Element i :: rest =>
      match v with
      | PList l =>
          match nth_error l i with
          | Some x => field x rest
          | None => None
          end
      | _ => None
      end
  end.

(** [name], [main.temp], [main.humidity], [weather[0].description]. *)
Definition name_path : list Step := [Member "name"].
Definition temp_path : list Step := [Member "main"; Member "temp"].
Definition humidity_path : list Step := [Member "main"; Member "humidity"].
Definition description_path : list Step :=
  [Member "weather"; Element 0; Member "description"].

(** A computation failed with one of the exceptions the normaliser's
    [except] clause names. *)
Definition format_failure {A} (r : Res A) : Prop :=
  exists e, r = Err e /\ format_errors e = true.

Ltac format_failure_found := eexists; split; reflexivity.

(** A coercion refused its argument: it raised [TypeError] or [ValueError]. *)
Definition rejected {A} (r : Res A) : Prop :=
  r = Err TypeError \/ r = Err ValueError.

(** A required field is absent or unreachable, or a numeric field is refused
    by its coercion. *)
Definition shape_invalid (payload : PyVal) : Prop :=
  field payload name_path = None
  \/ field payload temp_path = None
  \/ field payload humidity_path = None
  \/ field payload description_path = None
  \/ (exists v, field payload temp_path = Some v /\ rejected (py_float v))
  \/ (exists v, field payload humidity_path = Some v /\ rejected (py_int v)).

(** A numeric field is out of range for its coercion: an integer too large
    for a [float], or an infinite humidity. *)
Definition overflows (payload : PyVal) : Prop :=
  (exists v, field payload temp_path = Some v /\ py_float v = Err OverflowError)
  \/ (exists v, field payload humidity_path = Some v /\ py_int v = Err OverflowError).

(** ** The value of a float *)

(** The float [t] has exactly the value of the integer [n]. *)
Definition float_is_int (t : spec_float) (n : Z) : Prop :=
  match t with
  | S754_zero _ => n = 0
  | S754_finite s m e =>
      let sm := if s then Z.neg m else Z.pos m in
      if 0 <=? e then n = sm * 2 ^ e else sm = n * 2 ^ (- e)
  | S754_infinity _ | S754_nan => False
  end.

(** The float [t] is the number [v] of the payload: the same float, or a
    float with exactly the value of the integer. *)
Definition same_number (v : PyVal) (t : spec_float) : Prop :=
  match v with
  | PFloat f => t = f
  | PInt n => float_is_int t n
  | _ => False
  end.

(** A number binary64 holds exactly: a finite float, or an integer of
    magnitude at most [2^53]. *)
Definition exact_number (v : PyVal) : Prop :=
  match v with
  | PFloat f => finite f = true
  | PInt n => Z.abs n <= 2 ^ 53
  | _ => False
  end.

(** [h] is the value of the finite float [f] truncated toward zero: [h] has
    the sign of [f] and [|h| <= |f| < |h| + 1]. *)
Definition is_truncation_of (f : spec_float) (h : Z) : Prop :=
  match f with
  | S754_zero _ => h = 0
  | S754_finite s m e =>
      let num := Z.pos m * 2 ^ Z.max e 0 in
      let den := 2 ^ Z.max (- e) 0 in
      Z.abs h * den <= num < (Z.abs h + 1) * den
      /\ h = (if s then - Z.abs h else Z.abs h)
  | S754_infinity _ | S754_nan => False
  end.

(** A character that can occur in the text of an integer: a digit, a sign,
    an underscore, surrounding whitespace. *)
Definition integer_char (c : ascii) : bool :=
  is_digit c || isspace_numeric c
  || Ascii.eqb c "+" || Ascii.eqb c "-" || Ascii.eqb c "_".

(** The text has a decimal point or an exponent marker. *)
Definition has_fraction_or_exponent (s : string) : Prop :=
  exists c, In c (list_ascii_of_string s)
            /\ (c = "."%char \/ c = "e"%char \/ c = "E"%char).

(** ** Example payloads *)

(** The upstream document with the four fields set. *)
Definition payload_of (name temp hum descr : PyVal) : PyVal :=
  PDict [ ("name", name);
          ("main", PDict [("temp", temp); ("humidity", hum)]);
          ("weather", PList [PDict [("description", descr)]]) ].

(** [12.34] and [81.9]: the binary64 values nearest to the decimals. *)
Definition f12_34 : spec_float := S754_finite false 6946802425218990 (-49).
Definition f81_9 : spec_float := S754_finite false 5763200148150682 (-46).

Definition london_payload : PyVal :=
  payload_of (PStr "London") (PFloat f12_34) (PInt 81) (PStr "light rain").

(** ** The handlers' decisions *)

(** The city a handler sends upstream: the city trimmed, when there is one
    and it is not blank. *)
Definition checked_city (oc : option string) : option string :=
  match oc with
  | Some c => if String.eqb (strip c) "" then None else Some (strip c)
  | None => None
  end.

(** Text without whitespace at either end. *)
Definition unpadded (s : string) : Prop :=
  (forall c, hd_error (list_ascii_of_string s) = Some c -> isspace c = false)
  /\ (forall c, hd_error (rev (list_ascii_of_string s)) = Some c -> isspace c = false).

(** The four extractions succeed on [payload], with these raw values and
    coerced numbers. *)
Definition extracted (payload c tv : PyVal) (t : spec_float) (hv : PyVal)
    (h : Z) (dv : PyVal) : Prop :=
  field payload name_path = Some c
  /\ field payload temp_path = Some tv /\ py_float tv = Ok t
  /\ field payload humidity_path = Some hv /\ py_int hv = Ok h
  /\ field payload description_path = Some dv.

(** What the upstream client returns or raises on the answer [got] to its
    call. *)
Definition outcome_of (got : GetResult) : Res WeatherResponse :=
  match got with
  | RequestError => Err (HTTPException 502 "Failed to reach OpenWeatherMap.")
  | Response resp =>
      if status_code resp =? 404 then Err (HTTPException 404 "City not found.")
      else if 400 <=? status_code resp then
        Err (HTTPException 502
               ("OpenWeatherMap returned an error (status "
                  ++ str_of_int (status_code resp) ++ ")."))
      else
        match json resp with
        | None => Err (HTTPException 502 "OpenWeatherMap returned invalid JSON.")
        | Some payload => _normalize_openweather_payload payload
        end
  end.

(** The city is absent, empty or made of whitespace. *)
Definition no_city (oc : option string) : Prop :=
  oc = None \/ exists c, oc = Some c /\ blank c.

(** The API key is unset or empty. *)
Definition no_key (w : World) : Prop :=
  environ w "OPENWEATHER_API_KEY" = None
  \/ environ w "OPENWEATHER_API_KEY" = Some "".

(** [p] is one of the two weather handlers, called on the city [oc]. *)
Definition handles (p : Prog WeatherResponse) (oc : option string) : Prop :=
  p = get_weather oc \/ p = post_weather {| WeatherRequest.city := oc |}.

(* ================================================================== *)
(** * The model on concrete inputs *)
(* ================================================================== *)

Example strip_trims : strip "  New York " = "New York" /\ strip "   " = "".
Proof. split; reflexivity. Qed.

(** The float constants are what [float] reads from the decimals; each is
    within half a unit in the last place of its decimal: [m * 2^e] with
    [|m * 10^k - d * 2^(-e)| <= 10^k / 2]. *)
Example float_of_str_decimals :
  float_of_str "12.34" = Some f12_34 /\ float_of_str " 81.9 " = Some f81_9
  /\ float_of_str "10.0" = Some ten_seconds.
Proof. repeat split. Qed.

Example float_constants_are_nearest :
  Z.abs (6946802425218990 * 100 - 1234 * 2 ^ 49) * 2 <= 100
  /\ Z.abs (5763200148150682 * 10 - 819 * 2 ^ 46) * 2 <= 10
  /\ 5629499534213120 = 10 * 2 ^ 49.
Proof. repeat split; vm_compute; discriminate. Qed.

Example float_of_str_forms :
  float_of_str "1_0.5e-3" = float_of_str "0.0105"
  /\ float_of_str "-Infinity" = Some (S754_infinity true)
  /\ float_of_str "1e400" = Some (S754_infinity false)
  /\ float_of_str "-0" = Some (S754_zero true)
  /\ float_of_str "12,34" = None
  /\ float_of_str "" = None.
Proof. repeat split. Qed.

Example float_of_int_rounds :
  float_of_int 10 = Ok ten_seconds
  /\ float_of_int 9007199254740993 = Ok (S754_finite false 4503599627370496 1)
  /\ float_of_int (2 ^ 1024) = Err OverflowError.
Proof. repeat split. Qed.

Example int_of_str_forms :
  int_of_str " 81 " = Some 81 /\ int_of_str "-8_1" = Some (-81)
  /\ int_of_str "81.9" = None /\ int_of_str "8__1" = None
  /\ int_of_str "" = None.
Proof. repeat split. Qed.

Example int_of_float_truncation :
  int_of_float f81_9 = Ok 81
  /\ int_of_float (S754_finite true 5763200148150682 (-46)) = Ok (-81)
  /\ int_of_float (S754_infinity false) = Err OverflowError
  /\ int_of_float S754_nan = Err ValueError.
Proof. repeat split. Qed.

Example getitem_forms :
  getitem (PStr "abc") (KInt 0) = Ok (PStr "a")
  /\ getitem (PStr "abc") (KStr "description") = Err TypeError
  /\ getitem (PList []) (KInt 0) = Err IndexError
  /\ getitem (PDict []) (KInt 0) = Err KeyError
  /\ getitem PNone (KStr "name") = Err TypeError.
Proof. repeat split. Qed.

Example normalize_london :
  _normalize_openweather_payload london_payload
  = Ok {| city := "London"; temperature := f12_34; humidity := 81;
          description := Text "light rain" |}.
Proof. reflexivity. Qed.

Example resolve_forms :
  resolve "GET" "/weather" = Routed get_weather_endpoint
  /\ resolve "POST" "/weather" = Routed post_weather_endpoint
  /\ resolve "POST" "/" = MethodNotAllowed
  /\ resolve "GET" "/weather/" = RedirectSlashes "/weather"
  /\ resolve "GET" "/health/" = NotFound.
Proof. repeat split. Qed.

(** A newline that ends the path is let through by the pattern's [$]. *)
Example resolve_final_newline :
  resolve "GET" ("/" ++ newline) = Routed health_check_endpoint
  /\ resolve "POST" ("/weather" ++ newline) = Routed post_weather_endpoint
  /\ resolve "GET" (newline ++ "/") = NotFound
  /\ resolve "GET" ("/weather" ++ newline ++ "/")
     = RedirectSlashes ("/weather" ++ newline)
  /\ resolve "GET" ("/" ++ newline ++ newline) = NotFound.
Proof. repeat split. Qed.

(** A temperature that is not finite is written [null]. *)
Example respond_not_finite :
  respond (_normalize_openweather_payload
             (payload_of (PStr "London") (PFloat (S754_infinity false))
                (PInt 81) (PStr "light rain")))
  = Some {| status := 200;
            body := WeatherJsonNull "London" 81 (Text "light rain") |}
  /\ respond (_normalize_openweather_payload
                (payload_of (PStr "London") (PStr "nan")
                   (PInt 81) (PStr "light rain")))
     = Some {| status := 200;
               body := WeatherJsonNull "London" 81 (Text "light rain") |}.
Proof. split; reflexivity. Qed.

(* ================================================================== *)
(** * Running the handlers *)
(* ================================================================== *)

Lemma eqb_nonempty s : s <> "" -> String.eqb s "" = false.
Proof.
  intros H. destruct (String.eqb_spec s ""); [contradiction | reflexivity].
Qed.

Lemma truthy_nonblank c : strip c <> "" -> truthy (Some c) = Some c.
Proof.
  intros H. unfold truthy. destruct (String.eqb_spec c "") as [-> | _].
  - exfalso. apply H. reflexivity.
  - reflexivity.
Qed.

Section Configured.

Variable w : World.
Variable key : string.
Hypothesis Hkey : configured w key.

Lemma truthy_configured :
  truthy (environ w "OPENWEATHER_API_KEY") = Some key.
Proof.
  destruct Hkey as [Henv Hne]. rewrite Henv. unfold truthy.
  rewrite (eqb_nonempty _ Hne). reflexivity.
Qed.

(** Past the two checks, each handler is the upstream client on the
    trimmed city. *)
Lemma get_weather_delegates c :
  strip c <> "" ->
  run w (get_weather (Some c)) []
  = run w (_fetch_current_weather (strip c) key) [].
Proof.
  intros Hc. unfold get_weather. cbn [run].
  rewrite truthy_configured, (truthy_nonblank _ Hc), (eqb_nonempty _ Hc).
  reflexivity.
Qed.

Lemma post_weather_delegates c :
  strip c <> "" ->
  run w (post_weather {| WeatherRequest.city := Some c |}) []
  = run w (_fetch_current_weather (strip c) key) [].
Proof.
  intros Hc. unfold post_weather. cbn [run WeatherRequest.city].
  rewrite truthy_configured, (truthy_nonblank _ Hc), (eqb_nonempty _ Hc).
  reflexivity.
Qed.

End Configured.

(** The upstream client makes one call and decides on its answer. *)
Lemma fetch_run w city key :
  run w (_fetch_current_weather city key) []
  = ([weather_query city key],
     match network w 0%nat (weather_query city key) with
     | RequestError => Err (HTTPException 502 "Failed to reach OpenWeatherMap.")
     | Response resp =>
         if status_code resp =? 404 then Err (HTTPException 404 "City not found.")
         else if 400 <=? status_code resp then
           Err (HTTPException 502
                  ("OpenWeatherMap returned an error (status "
                     ++ str_of_int (status_code resp) ++ ")."))
         else
           match json resp with
           | None => Err (HTTPException 502 "OpenWeatherMap returned invalid JSON.")
           | Some payload => _normalize_openweather_payload payload
           end
     end).
Proof.
  unfold _fetch_current_weather, weather_query, OPENWEATHER_CURRENT_URL, raise.
  cbn [run List.length app].
  destruct (network w 0%nat _) as [| resp]; [reflexivity |].
  destruct (status_code resp =? 404); [reflexivity |].
  destruct (400 <=? status_code resp); [reflexivity |].
  destruct (json resp); reflexivity.
Qed.

(** ** Blank text *)

Lemma lstrip_blank l : forallb isspace l = true -> lstrip l = [].
Proof.
  induction l as [| c l IH]; cbn; [reflexivity |].
  intros H. apply andb_prop in H as [Hc Hl]. rewrite Hc. auto.
Qed.

Lemma lstrip_nil_blank l : lstrip l = [] -> forallb isspace l = true.
Proof.
  induction l as [| c l IH]; cbn; [reflexivity |].
  destruct (isspace c); [exact IH | discriminate].
Qed.

Lemma lstrip_stops_at_text l : forallb isspace (lstrip l) = true -> lstrip l = [].
Proof.
  induction l as [| c l IH]; cbn; [reflexivity |].
  destruct (isspace c) eqn:E; [exact IH |].
  cbn. rewrite E. discriminate.
Qed.

Lemma blank_rev l : forallb isspace (rev l) = forallb isspace l.
Proof.
  induction l as [| c l IH]; [reflexivity |].
  cbn. rewrite forallb_app, IH. cbn. rewrite andb_true_r. apply andb_comm.
Qed.

(** A text is empty after trimming exactly when it is empty or made of
    whitespace. *)
Lemma strip_empty_iff_blank s : strip s = "" <-> blank s.
Proof.
  unfold strip, blank, rstrip. split.
  - intros H. apply (f_equal list_ascii_of_string) in H.
    rewrite list_ascii_of_string_of_list_ascii in H. cbn in H.
    apply (f_equal (@rev ascii)) in H. rewrite rev_involutive in H. cbn in H.
    apply lstrip_nil_blank in H. rewrite blank_rev in H.
    apply lstrip_stops_at_text in H. apply lstrip_nil_blank, H.
  - intros H. rewrite (lstrip_blank _ H). reflexivity.
Qed.

(* ================================================================== *)
(** * Numeric coercions *)
(* ================================================================== *)

(** ** [float(n)] is exact on small integers *)

Lemma digits2_pos_iter_xO m d :
  digits2_pos (Pos.iter xO m d) = (digits2_pos m + d)%positive.
Proof.
  induction d as [| d IH] using Pos.peano_ind.
  - cbn. lia.
  - rewrite Pos.iter_succ. cbn [digits2_pos]. rewrite IH. lia.
Qed.

Lemma iter_xO_value m d : Z.pos (Pos.iter xO m d) = Z.pos m * 2 ^ Z.pos d.
Proof.
  induction d as [| d IH] using Pos.peano_ind.
  - cbn. lia.
  - rewrite Pos.iter_succ, Pos2Z.inj_xO, IH, Pos2Z.inj_succ, Z.pow_succ_r by lia. lia.
Qed.

Lemma digits2_pos_lower p : 2 ^ (Z.pos (digits2_pos p) - 1) <= Z.pos p.
Proof.
  induction p as [p IH | p IH |]; cbn [digits2_pos].
  - rewrite Pos2Z.inj_succ.
    replace (Z.succ (Z.pos (digits2_pos p)) - 1) with (Z.succ (Z.pos (digits2_pos p) - 1)) by lia.
    rewrite Z.pow_succ_r by lia. lia.
  - rewrite Pos2Z.inj_succ.
    replace (Z.succ (Z.pos (digits2_pos p)) - 1) with (Z.succ (Z.pos (digits2_pos p) - 1)) by lia.
    rewrite Z.pow_succ_r by lia. lia.
  - cbn. lia.
Qed.

Lemma binary_round_aux_canonical s m e :
  Z.pos (digits2_pos m) = 53 -> -1021 <= e <= 971 ->
  binary_round_aux prec emax s (Z.pos m) e loc_Exact = S754_finite s m e.
Proof.
  intros Hd He.
  assert (Hf : fexp prec emax (Zdigits2 (Z.pos m) + e) - e = 0).
  { unfold fexp, SpecFloat.emin, prec, emax. cbn [Zdigits2]. rewrite Hd. lia. }
  unfold binary_round_aux, shr_fexp.
  cbn [shr_record_of_loc]. rewrite Hf. cbn [shr shr_m loc_of_shr_record round_nearest_even shr_record_of_loc].
  rewrite Hf. cbn [shr shr_m].
  unfold prec, emax. destruct (Z.leb_spec e (1024 - 53)); [reflexivity | lia].
Qed.

Lemma binary_round_small s m :
  Z.pos (digits2_pos m) <= 53 ->
  exists m' e,
    binary_round prec emax s m 0 = S754_finite s m' e
    /\ e <= 0 /\ Z.pos m' = Z.pos m * 2 ^ (- e).
Proof.
  intros Hd. unfold binary_round.
  assert (Hf : fexp prec emax (Z.pos (digits2_pos m) + 0) = Z.pos (digits2_pos m) - 53).
  { unfold fexp, SpecFloat.emin, prec, emax. lia. }
  rewrite Hf. unfold shl_align.
  destruct (Z.pos (digits2_pos m) - 53 - 0) as [| d | d] eqn:Hsub; try lia.
  - exists m, 0. split; [| split; [lia | cbn; lia]].
    apply binary_round_aux_canonical; lia.
  - exists (Pos.iter xO m d), (Z.pos (digits2_pos m) - 53).
    split; [| split; [lia |]].
    + apply binary_round_aux_canonical; [| lia].
      rewrite digits2_pos_iter_xO. lia.
    + rewrite iter_xO_value. f_equal. f_equal. lia.
Qed.

Lemma float_of_int_exact n :
  Z.abs n <= 2 ^ 53 ->
  exists t, float_of_int n = Ok t /\ float_is_int t n.
Proof.
  intros Hn.
  assert (Hsmall : forall (s : bool) p, Z.pos p < 2 ^ 53 ->
            exists t, float_of_int (if s then Z.neg p else Z.pos p) = Ok t
                      /\ float_is_int t (if s then Z.neg p else Z.pos p)).
  { intros s p Hp.
    assert (Hd : Z.pos (digits2_pos p) <= 53).
    { pose proof (digits2_pos_lower p) as Hl.
      destruct (Z.le_gt_cases (Z.pos (digits2_pos p)) 53) as [| Hgt]; [assumption |].
      exfalso.
      assert (2 ^ 53 <= 2 ^ (Z.pos (digits2_pos p) - 1))
        by (apply Z.pow_le_mono_r; lia).
      lia. }
    destruct (binary_round_small s p Hd) as (m' & e & Hr & He & Hv).
    exists (S754_finite s m' e). split.
    - unfold float_of_int, binary_normalize. destruct s; rewrite Hr; reflexivity.
    - unfold float_is_int.
      destruct (Z.leb_spec 0 e) as [H0 | H0].
      + assert (e = 0) by lia. subst e. cbn in Hv. destruct s; lia.
      + destruct s; [| exact Hv].
        change (Z.neg m') with (- Z.pos m'). change (Z.neg p) with (- Z.pos p).
        rewrite Hv. lia. }
  destruct n as [| p | p].
  - exists (S754_zero false). split; reflexivity.
  - destruct (Z.eq_dec (Z.pos p) (2 ^ 53)) as [E | E].
    + injection E as ->. eexists. split; [vm_compute; reflexivity | vm_compute; reflexivity].
    + apply (Hsmall false p). cbn [Z.abs] in Hn. lia.
  - destruct (Z.eq_dec (Z.pos p) (2 ^ 53)) as [E | E].
    + injection E as ->. eexists. split; [vm_compute; reflexivity | vm_compute; reflexivity].
    + apply (Hsmall true p). cbn [Z.abs] in Hn. lia.
Qed.

(** ** [int(x)] truncates *)

Lemma int_of_float_truncates f :
  finite f = true -> exists h, int_of_float f = Ok h /\ is_truncation_of f h.
Proof.
  destruct f as [s | s | | s m e]; cbn [finite]; try discriminate; intros _.
  - exists 0. split; reflexivity.
  - cbn [int_of_float is_truncation_of].
    set (a := if 0 <=? e then Z.shiftl (Z.pos m) e else Z.shiftr (Z.pos m) (- e)).
    exists (if s then - a else a). split; [reflexivity |].
    assert (Ha : 0 <= a).
    { unfold a. destruct (0 <=? e).
      - apply Z.shiftl_nonneg. lia.
      - apply Z.shiftr_nonneg. lia. }
    assert (Habs : Z.abs (if s then - a else a) = a) by (destruct s; lia).
    rewrite Habs. split; [| reflexivity].
    unfold a. destruct (Z.leb_spec 0 e) as [He | He].
    + rewrite Z.shiftl_mul_pow2 by lia.
      rewrite (Z.max_l e 0), (Z.max_r (- e) 0) by lia.
      change (2 ^ 0) with 1. lia.
    + rewrite Z.shiftr_div_pow2 by lia.
      rewrite (Z.max_r e 0), (Z.max_l (- e) 0) by lia.
      change (2 ^ 0) with 1.
      assert (Hp : 0 < 2 ^ (- e)) by (apply Z.pow_pos_nonneg; lia).
      pose proof (Z.mul_div_le (Z.pos m) (2 ^ (- e)) Hp).
      pose proof (Z.mul_succ_div_gt (Z.pos m) (2 ^ (- e)) Hp).
      split; lia.
Qed.

(** ** The characters of an integer literal *)

Lemma lstrip_numeric_in l c :
  In c l -> isspace_numeric c = true \/ In c (lstrip_numeric l).
Proof.
  induction l as [| a l IH]; cbn [lstrip_numeric]; [intros [] |].
  intros [<- | Hin].
  - destruct (isspace_numeric a) eqn:E; [left; reflexivity | right; left; reflexivity].
  - destruct (isspace_numeric a); [apply IH, Hin | right; right; exact Hin].
Qed.

Lemma strip_numeric_in l c :
  In c l -> isspace_numeric c = true \/ In c (strip_numeric l).
Proof.
  intros Hin. unfold strip_numeric.
  destruct (lstrip_numeric_in l c Hin) as [Hs | Hin1]; [left; exact Hs |].
  apply in_rev in Hin1.
  destruct (lstrip_numeric_in _ c Hin1) as [Hs | Hin2]; [left; exact Hs |].
  right. apply in_rev in Hin2. exact Hin2.
Qed.

Lemma sign_opt_in l c :
  In c l -> c = "-"%char \/ c = "+"%char \/ In c (snd (sign_opt l)).
Proof.
  destruct l as [| a l]; [intros [] |]. cbn [sign_opt].
  destruct (Ascii.eqb_spec a "-") as [-> | _].
  { intros [<- | H]; [left; reflexivity | right; right; exact H]. }
  destruct (Ascii.eqb_spec a "+") as [-> | _].
  { intros [<- | H]; [right; left; reflexivity | right; right; exact H]. }
  intros H. right; right. exact H.
Qed.

Lemma digitpart_rest_in n :
  forall l c, (List.length l <= n)%nat -> In c l ->
    is_digit c = true \/ c = "_"%char \/ In c (snd (digitpart_rest l)).
Proof.
  induction n as [| n IH]; intros l c Hlen Hin.
  - destruct l; [destruct Hin | cbn in Hlen; lia].
  - destruct l as [| a l]; [destruct Hin |]. cbn [digitpart_rest].
    destruct (is_digit a) eqn:Ea.
    + destruct (digitpart_rest l) as [ds r] eqn:Er. cbn [snd].
      destruct Hin as [<- | Hin]; [left; exact Ea |].
      specialize (IH l c ltac:(cbn in Hlen; lia) Hin). rewrite Er in IH. exact IH.
    + destruct (Ascii.eqb_spec a "_") as [-> | _]; [| right; right; exact Hin].
      destruct l as [| d l]; [right; right; exact Hin |].
      destruct (is_digit d) eqn:Ed; [| right; right; exact Hin].
      destruct (digitpart_rest l) as [ds r] eqn:Er. cbn [snd].
      destruct Hin as [<- | [<- | Hin]];
        [right; left; reflexivity | left; exact Ed |].
      specialize (IH l c ltac:(cbn in Hlen; lia) Hin). rewrite Er in IH. exact IH.
Qed.

Lemma digitpart_in l ds r c :
  digitpart l = Some (ds, r) -> In c l ->
  is_digit c = true \/ c = "_"%char \/ In c r.
Proof.
  destruct l as [| a l]; [discriminate |]. cbn [digitpart].
  destruct (is_digit a) eqn:Ea; [| discriminate].
  destruct (digitpart_rest l) as [ds' r'] eqn:Er. intros [= <- <-].
  intros [<- | Hin]; [left; exact Ea |].
  pose proof (digitpart_rest_in (List.length l) l c (le_n _) Hin) as H.
  rewrite Er in H. exact H.
Qed.

Lemma int_of_str_chars s n c :
  int_of_str s = Some n -> In c (list_ascii_of_string s) -> integer_char c = true.
Proof.
  unfold int_of_str, integer_char. intros Hs Hin.
  destruct (strip_numeric_in _ c Hin) as [Hsp | Hin1].
  { rewrite Hsp. rewrite orb_true_r. reflexivity. }
  destruct (sign_opt_in _ c Hin1) as [-> | [-> | Hin2]]; [reflexivity | reflexivity |].
  destruct (sign_opt (strip_numeric (list_ascii_of_string s))) as [neg l]. cbn [snd] in Hin2.
  destruct (digitpart l) as [[ds r] |] eqn:Ed; [| discriminate].
  destruct r; [| discriminate].
  destruct (digitpart_in _ _ _ c Ed Hin2) as [Hd | [-> | []]].
  - rewrite Hd. reflexivity.
  - reflexivity.
Qed.

Lemma int_of_str_fraction s :
  has_fraction_or_exponent s -> int_of_str s = None.
Proof.
  intros (c & Hin & Hc).
  destruct (int_of_str s) as [n |] eqn:E; [| reflexivity].
  pose proof (int_of_str_chars s n c E Hin) as H.
  destruct Hc as [-> | [-> | ->]]; discriminate H.
Qed.

(** ** What the coercions raise *)

Lemma py_float_errors v e :
  py_float v = Err e -> e = TypeError \/ e = ValueError \/ e = OverflowError.
Proof.
  destruct v; cbn [py_float]; try (intros [= <-]; auto).
  - unfold float_of_int. destruct (binary_normalize _ _ _ _ _); intros [= <-]; auto.
  - unfold float_of_int. destruct (binary_normalize _ _ _ _ _); intros [= <-]; auto.
  - destruct (float_of_str s); intros [= <-]; auto.
Qed.

Lemma py_int_errors v e :
  py_int v = Err e -> e = TypeError \/ e = ValueError \/ e = OverflowError.
Proof.
  destruct v; cbn [py_int]; try (intros [= <-]; auto); try discriminate.
  - destruct f; cbn [int_of_float]; intros [= <-]; auto.
  - destruct (int_of_str s); intros [= <-]; auto.
Qed.

(* ================================================================== *)
(** * The normaliser, field by field *)
(* ================================================================== *)

Lemma getitem_member v k :
  match field v [Member k] with
  | Some x => getitem v (KStr k) = Ok x
  | None => format_failure (getitem v (KStr k))
  end.
Proof.
  unfold format_failure.
  destruct v; cbn; try (format_failure_found).
  destruct (dict_get items k); [reflexivity | format_failure_found].
Qed.

Lemma getitem_member2 v a b :
  match field v [Member a; Member b] with
  | Some x => (m <- getitem v (KStr a) ;; getitem m (KStr b)) = Ok x
  | None => format_failure (m <- getitem v (KStr a) ;; getitem m (KStr b))
  end.
Proof.
  destruct v; cbn [field]; try (format_failure_found).
  cbn [getitem]. destruct (dict_get items a) as [m |];
    [| format_failure_found].
  cbn [res_bind]. apply (getitem_member m b).
Qed.

Lemma getitem_first v :
  match field v [Element 0] with
  | Some x => getitem v (KInt 0) = Ok x
  | None =>
      format_failure (getitem v (KInt 0))
      \/ exists c, getitem v (KInt 0) = Ok (PStr c)
  end.
Proof.
  unfold format_failure.
  destruct v; cbn [field getitem]; try (left; format_failure_found).
  - destruct s as [| c s]; [left; format_failure_found |].
    right. exists (String c ""). reflexivity.
  - destruct l as [| x l]; [left; format_failure_found | reflexivity].
Qed.

Lemma getitem_description v :
  match field v description_path with
  | Some x =>
      (w <- getitem v (KStr "weather") ;;
       w0 <- getitem w (KInt 0) ;; getitem w0 (KStr "description")) = Ok x
  | None =>
      format_failure
        (w <- getitem v (KStr "weather") ;;
         w0 <- getitem w (KInt 0) ;; getitem w0 (KStr "description"))
  end.
Proof.
  unfold description_path.
  destruct v; cbn [field]; try (format_failure_found).
  cbn [getitem]. destruct (dict_get items "weather") as [w |];
    [| format_failure_found].
  cbn [res_bind].
  pose proof (getitem_first w) as Hw. cbn [field] in *.
  destruct w; cbn [field] in *; try (format_failure_found).
  - destruct Hw as [[e [He Hf]] | [c Hc]].
    + rewrite He. exists e. split; [reflexivity | assumption].
    + rewrite Hc. format_failure_found.
  - destruct (nth_error l 0) as [w0 |].
    + rewrite Hw. cbn [res_bind]. apply (getitem_member w0 "description").
    + destruct Hw as [[e [He Hf]] | [c Hc]].
      * rewrite He. exists e. split; [reflexivity | assumption].
      * rewrite Hc. format_failure_found.
Qed.

(** The normaliser, step by step, on the fields of the document: the first
    step that fails decides; a format error becomes the 502, any other
    exception escapes. *)
Lemma normalize_steps payload :
  _normalize_openweather_payload payload =
  match field payload name_path with
  | None => Err unexpected_format
  | Some c =>
  match field payload temp_path with
  | None => Err unexpected_format
  | Some t0 =>
  match py_float t0 with
  | Err e => if format_errors e then Err unexpected_format else Err e
  | Ok t =>
  match field payload humidity_path with
  | None => Err unexpected_format
  | Some h0 =>
  match py_int h0 with
  | Err e => if format_errors e then Err unexpected_format else Err e
  | Ok h =>
  match field payload description_path with
  | None => Err unexpected_format
  | Some d0 => new_WeatherResponse c t h (py_str d0)
  end end end end end end.
Proof.
  unfold _normalize_openweather_payload, extract_fields.
  pose proof (getitem_member payload "name") as Hn.
  pose proof (getitem_member2 payload "main" "temp") as Ht.
  pose proof (getitem_member2 payload "main" "humidity") as Hh.
  pose proof (getitem_description payload) as Hd.
  fold name_path in Hn. fold temp_path in Ht. fold humidity_path in Hh.
  destruct (field payload name_path) as [c |].
  2:{ destruct Hn as [e [-> Hf]]. cbn. rewrite Hf. reflexivity. }
  rewrite Hn. cbn [res_bind].
  destruct (field payload temp_path) as [t0 |].
  2:{ destruct Ht as [e [He Hf]].
      destruct (getitem payload (KStr "main")) as [m |]; cbn [res_bind] in *.
      - rewrite He. cbn. rewrite Hf. reflexivity.
      - injection He as ->. cbn. rewrite Hf. reflexivity. }
  destruct (getitem payload (KStr "main")) as [m |]; cbn [res_bind] in *;
    [| discriminate].
  rewrite Ht. cbn [res_bind].
  destruct (py_float t0) as [t | e]; cbn [res_bind];
    [| cbn; destruct (format_errors e); reflexivity].
  destruct (field payload humidity_path) as [h0 |].
  2:{ destruct Hh as [e [-> Hf]]. cbn. rewrite Hf. reflexivity. }
  rewrite Hh. cbn [res_bind].
  destruct (py_int h0) as [h | e]; cbn [res_bind];
    [| cbn; destruct (format_errors e); reflexivity].
  destruct (field payload description_path) as [d0 |].
  2:{ destruct Hd as [e [He Hf]].
      destruct (getitem payload (KStr "weather")) as [wv |]; cbn [res_bind] in *.
      - destruct (getitem wv (KInt 0)) as [w0 |]; cbn [res_bind] in *.
        + rewrite He. cbn. rewrite Hf. reflexivity.
        + injection He as ->. cbn. rewrite Hf. reflexivity.
      - injection He as ->. cbn. rewrite Hf. reflexivity. }
  destruct (getitem payload (KStr "weather")) as [wv |]; cbn [res_bind] in *;
    [| discriminate].
  destruct (getitem wv (KInt 0)) as [w0 |]; cbn [res_bind] in *;
    [| discriminate].
  rewrite Hd. reflexivity.
Qed.

(** The normaliser returns a response or raises one of three exceptions. *)
Lemma normalize_outcomes payload :
  (exists r, _normalize_openweather_payload payload = Ok r)
  \/ _normalize_openweather_payload payload = Err unexpected_format
  \/ _normalize_openweather_payload payload = Err ValidationError
  \/ _normalize_openweather_payload payload = Err OverflowError.
Proof.
  rewrite normalize_steps.
  destruct (field payload name_path) as [c |]; [| auto].
  destruct (field payload temp_path) as [t0 |]; [| auto].
  destruct (py_float t0) as [t | e] eqn:Ef.
  2:{ destruct (py_float_errors _ _ Ef) as [-> | [-> | ->]]; cbn; auto. }
  destruct (field payload humidity_path) as [h0 |]; [| auto].
  destruct (py_int h0) as [h | e] eqn:Ei.
  2:{ destruct (py_int_errors _ _ Ei) as [-> | [-> | ->]]; cbn; auto. }
  destruct (field payload description_path) as [d0 |]; [| auto].
  destruct c; cbn; eauto.
Qed.

(** X16. The 502 of an unexpected format has no other cause than the
    payload: it is raised only when a required field is absent or
    unreachable, or a numeric field is refused by its coercion. *)
Lemma unexpected_format_only_if_shape_invalid payload :
  _normalize_openweather_payload payload = Err unexpected_format ->
  shape_invalid payload.
Proof.
  rewrite normalize_steps. unfold shape_invalid.
  destruct (field payload name_path) as [c |]; [| auto].
  destruct (field payload temp_path) as [t0 |]; [| auto].
  destruct (py_float t0) as [t | e] eqn:Ef.
  2:{ intros H. right; right; right; right; left. exists t0.
      split; [reflexivity |]. unfold rejected.
      destruct (py_float_errors _ _ Ef) as [-> | [-> | ->]]; auto.
      cbn in H. discriminate H. }
  destruct (field payload humidity_path) as [h0 |]; [| auto 6].
  destruct (py_int h0) as [h | e] eqn:Ei.
  2:{ intros H. right; right; right; right; right. exists h0.
      split; [reflexivity |]. unfold rejected.
      destruct (py_int_errors _ _ Ei) as [-> | [-> | ->]]; auto.
      cbn in H. discriminate H. }
  destruct (field payload description_path) as [d0 |]; [| auto 6].
  destruct c; cbn; discriminate.
Qed.

(** When the four extractions succeed, a [name] that is not text is refused
    by the response model, outside the [try] block. *)
Lemma name_not_text_escapes payload c tv t hv h dv :
  field payload name_path = Some c ->
  (forall s, c <> PStr s) ->
  field payload temp_path = Some tv -> py_float tv = Ok t ->
  field payload humidity_path = Some hv -> py_int hv = Ok h ->
  field payload description_path = Some dv ->
  _normalize_openweather_payload payload = Err ValidationError.
Proof.
  intros Hn Hc Ht Hf Hh Hi Hd.
  rewrite normalize_steps, Hn, Ht, Hf, Hh, Hi, Hd.
  destruct c; try reflexivity. exfalso. apply (Hc s). reflexivity.
Qed.

(* ================================================================== *)
(** * The normaliser: rejected and accepted payloads *)
(* ================================================================== *)

(** What the normaliser answers with 502. For every parsed payload in
    which a required field is absent or unreachable ([name], [main.temp],
    [main.humidity], [weather[0].description]; [main] not an object,
    [weather] empty or not an array), or in which [float()] or [int()]
    refuses a numeric field with a [TypeError] or [ValueError], and in which
    no numeric coercion overflows, normalisation fails with HTTP 502 and the
    unexpected-format message. *)
Theorem shape_invalid_is_502 payload :
  shape_invalid payload ->
  ~ overflows payload ->
  _normalize_openweather_payload payload
  = Err (HTTPException 502
           "Upstream response format from OpenWeatherMap was unexpected.").
Proof.
  intros Hs Ho. rewrite normalize_steps. fold unexpected_format.
  destruct (field payload name_path) as [c |] eqn:En; [| reflexivity].
  destruct (field payload temp_path) as [t0 |] eqn:Et; [| reflexivity].
  destruct (py_float t0) as [t | e] eqn:Ef.
  2:{ destruct (py_float_errors _ _ Ef) as [-> | [-> | ->]]; try reflexivity.
      exfalso. apply Ho. left. exists t0. split; [exact Et | exact Ef]. }
  destruct (field payload humidity_path) as [h0 |] eqn:Eh; [| reflexivity].
  destruct (py_int h0) as [h | e] eqn:Ei.
  2:{ destruct (py_int_errors _ _ Ei) as [-> | [-> | ->]]; try reflexivity.
      exfalso. apply Ho. right. exists h0. split; [exact Eh | exact Ei]. }
  destruct (field payload description_path) as [d0 |] eqn:Ed; [| reflexivity].
  exfalso.
  destruct Hs as [H | [H | [H | [H | [(v & Hv & Hr) | (v & Hv & Hr)]]]]];
    try congruence.
  - rewrite Et in Hv. injection Hv as <-. rewrite Ef in Hr.
    destruct Hr; discriminate.
  - rewrite Eh in Hv. injection Hv as <-. rewrite Ei in Hr.
    destruct Hr; discriminate.
Qed.

Lemma shape_invalid_is_502_witness :
  _normalize_openweather_payload
    (PDict [ ("name", PStr "London");
             ("main", PDict [("temp", PFloat f12_34); ("humidity", PInt 81)]);
             ("weather", PList []) ])
  = Err (HTTPException 502
           "Upstream response format from OpenWeatherMap was unexpected.").
Proof.
  apply shape_invalid_is_502.
  - right; right; right; left. reflexivity.
  - intros [(v & Hv & Hf) | (v & Hv & Hf)];
      vm_compute in Hv; injection Hv as <-; discriminate Hf.
Defined.

(** C5. The code departs from the claim on a [name] that is not a string.
    The [try] block only reads [name]; the model that rejects it is built
    after the block, so its [ValidationError] is not turned into the 502:
    the normaliser raises it, against its docstring, and the request is
    answered with a plain 500. The payload is well formed otherwise: the
    same payload with a string for [name] is normalised. An integer too
    large for [float()] escapes the same way, as [OverflowError], which the
    [except] clause does not name. *)
Theorem name_not_a_string_is_answered_500 :
  field (payload_of PNone (PFloat f12_34) (PInt 81) (PStr "light rain")) name_path
  = Some PNone
  /\ _normalize_openweather_payload
       (payload_of PNone (PFloat f12_34) (PInt 81) (PStr "light rain"))
     = Err ValidationError
  /\ _normalize_openweather_payload
       (payload_of PNone (PFloat f12_34) (PInt 81) (PStr "light rain"))
     <> Err (HTTPException 502
               "Upstream response format from OpenWeatherMap was unexpected.")
  /\ reply_of
       (world (Some "test-key")
          (Response {| status_code := 200;
                       json := Some (payload_of PNone (PFloat f12_34) (PInt 81)
                                       (PStr "light rain")) |}))
       (get_weather (Some "London"))
     = Some {| status := 500; body := TextBody "Internal Server Error" |}
  /\ _normalize_openweather_payload
       (payload_of (PStr "London") (PFloat f12_34) (PInt 81) (PStr "light rain"))
     = Ok {| city := "London"; temperature := f12_34; humidity := 81;
             description := Text "light rain" |}
  /\ _normalize_openweather_payload
       (payload_of (PStr "London") (PInt (2 ^ 1024)) (PInt 81) (PStr "light rain"))
     = Err OverflowError.
Proof.
  split; [reflexivity |]. split; [reflexivity |].
  split; [vm_compute; discriminate |]. repeat split.
Qed.

(** C10, as the code has it. In a payload whose other three fields are
    accepted ([name] a string, [main.temp] accepted by [float()],
    [weather[0].description] present), a humidity that is a finite float is
    not a format error: normalisation succeeds and the humidity returned is
    that number truncated toward zero. A humidity that is text with a
    decimal point or an exponent is refused by [int()] and normalisation
    fails with the 502 of an unexpected format. *)
Theorem humidity_is_truncated_or_refused payload name tv t dv :
  field payload name_path = Some (PStr name) ->
  field payload temp_path = Some tv ->
  py_float tv = Ok t ->
  field payload description_path = Some dv ->
  (forall f,
      field payload humidity_path = Some (PFloat f) -> finite f = true ->
      exists h,
        is_truncation_of f h
        /\ _normalize_openweather_payload payload
           = Ok {| city := name; temperature := t; humidity := h;
                   description := py_str dv |})
  /\ (forall s,
         field payload humidity_path = Some (PStr s) ->
         has_fraction_or_exponent s ->
         py_int (PStr s) = Err ValueError
         /\ _normalize_openweather_payload payload
            = Err (HTTPException 502
                     "Upstream response format from OpenWeatherMap was unexpected.")).
Proof.
  intros Hn Ht Hf Hd. split.
  - intros f Hh Hfin.
    destruct (int_of_float_truncates f Hfin) as (h & Hi & Htr).
    exists h. split; [exact Htr |].
    rewrite normalize_steps, Hn, Ht, Hf, Hh, Hd. cbn [py_int]. rewrite Hi.
    reflexivity.
  - intros s Hh Hs.
    assert (Hi : py_int (PStr s) = Err ValueError).
    { cbn [py_int]. rewrite (int_of_str_fraction s Hs). reflexivity. }
    split; [exact Hi |].
    rewrite normalize_steps, Hn, Ht, Hf, Hh, Hi. reflexivity.
Qed.

Lemma humidity_is_truncated_or_refused_witness :
  _normalize_openweather_payload
    (payload_of (PStr "London") (PFloat f12_34) (PFloat f81_9) (PStr "light rain"))
  = Ok {| city := "London"; temperature := f12_34; humidity := 81;
          description := Text "light rain" |}
  /\ _normalize_openweather_payload
       (payload_of (PStr "London") (PFloat f12_34) (PStr "81.9") (PStr "light rain"))
     = Err (HTTPException 502
              "Upstream response format from OpenWeatherMap was unexpected.").
Proof.
  split.
  - destruct (humidity_is_truncated_or_refused
                (payload_of (PStr "London") (PFloat f12_34) (PFloat f81_9)
                   (PStr "light rain"))
                "London" (PFloat f12_34) f12_34 (PStr "light rain")
                eq_refl eq_refl eq_refl eq_refl) as [H _].
    destruct (H f81_9 eq_refl eq_refl) as (h & Htr & Hr).
    pose proof Hr as Hh. vm_compute in Hh. injection Hh as <-. exact Hr.
  - destruct (humidity_is_truncated_or_refused
                (payload_of (PStr "London") (PFloat f12_34) (PStr "81.9")
                   (PStr "light rain"))
                "London" (PFloat f12_34) f12_34 (PStr "light rain")
                eq_refl eq_refl eq_refl eq_refl) as [_ H].
    apply (H "81.9"); [reflexivity |].
    exists "."%char. split; [cbn; auto | left; reflexivity].
Defined.

(** C10 as stated fails: a fractional humidity does not make a payload
    pass. Without [name] the payload is still answered with the 502 of an
    unexpected format; and a humidity that is an infinite float is neither
    truncated nor answered with that 502, [int()] raises [OverflowError].
    Nor does a humidity in text always lead to the 502: after a temperature
    that overflows, it is not even read. *)
Lemma fractional_humidity_is_not_enough :
  field (PDict [ ("main", PDict [("temp", PFloat f12_34); ("humidity", PFloat f81_9)]);
                 ("weather", PList [PDict [("description", PStr "light rain")]]) ])
    humidity_path = Some (PFloat f81_9)
  /\ _normalize_openweather_payload
       (PDict [ ("main", PDict [("temp", PFloat f12_34); ("humidity", PFloat f81_9)]);
                ("weather", PList [PDict [("description", PStr "light rain")]]) ])
     = Err (HTTPException 502
              "Upstream response format from OpenWeatherMap was unexpected.")
  /\ _normalize_openweather_payload
       (payload_of (PStr "London") (PFloat f12_34)
          (PFloat (S754_infinity false)) (PStr "light rain"))
     = Err OverflowError
  /\ _normalize_openweather_payload
       (payload_of (PStr "London") (PInt (2 ^ 1024)) (PStr "81.9")
          (PStr "light rain"))
     = Err OverflowError.
Proof. repeat split. Qed.

(* ================================================================== *)
(** * The upstream client: error statuses, transport and JSON failures *)
(* ================================================================== *)

(** C2. For every upstream response with status [s >= 400], whatever its
    body: status 404 fails the request with HTTP 404 and the fixed message
    "City not found."; every other status fails it with HTTP 502 and a
    message that includes [s] in decimal. The reply does not depend on the
    body, which is neither parsed nor normalised. *)
Theorem upstream_error_status_is_mapped w city key s j :
  answers w (Response {| status_code := s; json := j |}) ->
  400 <= s ->
  reply_of w (_fetch_current_weather city key)
  = Some (if s =? 404 then error_reply 404 "City not found."
          else error_reply 502
                 ("OpenWeatherMap returned an error (status "
                    ++ str_of_int s ++ ")."))
  /\ contains ("OpenWeatherMap returned an error (status " ++ str_of_int s ++ ").")
       (str_of_int s).
Proof.
  intros Hw Hs. unfold reply_of. rewrite fetch_run, Hw. cbn [snd status_code json].
  split.
  - destruct (s =? 404); [reflexivity |].
    destruct (Z.leb_spec 400 s); [reflexivity | lia].
  - exists "OpenWeatherMap returned an error (status ", ").". reflexivity.
Qed.

Lemma upstream_error_status_is_mapped_witness :
  reply_of (world (Some "test-key")
              (Response {| status_code := 500; json := Some london_payload |}))
    (_fetch_current_weather "London" "test-key")
  = Some (error_reply 502 "OpenWeatherMap returned an error (status 500).")
  /\ contains "OpenWeatherMap returned an error (status 500)." "500".
Proof.
  apply (upstream_error_status_is_mapped
           (world (Some "test-key")
              (Response {| status_code := 500; json := Some london_payload |}))
           "London" "test-key" 500 (Some london_payload)).
  - intros req. reflexivity.
  - lia.
Defined.

(** C6, as the code has it. For every request that reaches the upstream
    client: a transport failure fails it with HTTP 502 and "Failed to reach
    OpenWeatherMap."; a response whose status is below 400 and whose body is
    not JSON fails it with HTTP 502 and "OpenWeatherMap returned invalid
    JSON.". In both cases the reply is an error, not a normalised result. *)
Theorem unreachable_or_malformed_is_502 w city key got :
  answers w got ->
  unreachable_or_malformed got ->
  reply_of w (_fetch_current_weather city key)
  = Some (error_reply 502
            (match got with
             | RequestError => "Failed to reach OpenWeatherMap."
             | Response _ => "OpenWeatherMap returned invalid JSON."
             end)).
Proof.
  intros Hw Hgot. unfold reply_of. rewrite fetch_run, Hw. cbn [snd].
  destruct got as [| resp]; [reflexivity |].
  destruct Hgot as [Hs Hj]. rewrite Hj.
  destruct (Z.eqb_spec (status_code resp) 404); [lia |].
  destruct (Z.leb_spec 400 (status_code resp)); [lia | reflexivity].
Qed.

Lemma unreachable_or_malformed_is_502_witness :
  reply_of (world (Some "test-key")
              (Response {| status_code := 200; json := None |}))
    (_fetch_current_weather "London" "test-key")
  = Some (error_reply 502 "OpenWeatherMap returned invalid JSON.")
  /\ reply_of (world (Some "test-key") RequestError)
       (_fetch_current_weather "London" "test-key")
     = Some (error_reply 502 "Failed to reach OpenWeatherMap.").
Proof.
  split.
  - apply (unreachable_or_malformed_is_502
             (world (Some "test-key") (Response {| status_code := 200; json := None |}))
             "London" "test-key" (Response {| status_code := 200; json := None |})).
    + intros req. reflexivity.
    + cbn. split; [lia | reflexivity].
  - apply (unreachable_or_malformed_is_502
             (world (Some "test-key") RequestError)
             "London" "test-key" RequestError).
    + intros req. reflexivity.
    + exact I.
Defined.

(** C6 as stated fails: an upstream 404 whose body is not JSON is answered
    with 404 "City not found.", not with 502 and the invalid-JSON
    message. The status is examined before the body. *)
Lemma malformed_body_with_404_is_not_502 :
  json {| status_code := 404; json := None |} = None
  /\ reply_of (world (Some "test-key")
                 (Response {| status_code := 404; json := None |}))
       (get_weather (Some "London"))
     = Some (error_reply 404 "City not found.")
  /\ reply_of (world (Some "test-key")
                 (Response {| status_code := 404; json := None |}))
       (get_weather (Some "London"))
     <> Some (error_reply 502 "OpenWeatherMap returned invalid JSON.").
Proof.
  split; [reflexivity |]. split; [reflexivity |]. vm_compute. discriminate.
Qed.

(* ================================================================== *)
(** * The handlers: configuration, input checks, delegation *)
(* ================================================================== *)

(** C4. When [OPENWEATHER_API_KEY] is unset or empty, both handlers fail
    with HTTP 500 and a message that names the variable, whatever the city
    is (valid, blank or absent), and make no outbound call. *)
Theorem missing_api_key_is_500 w (c : option string) :
  environ w "OPENWEATHER_API_KEY" = None
  \/ environ w "OPENWEATHER_API_KEY" = Some "" ->
  let detail := "OPENWEATHER_API_KEY is not configured on the server." in
  reply_of w (get_weather c) = Some (error_reply 500 detail)
  /\ calls_of w (get_weather c) = []
  /\ reply_of w (post_weather {| WeatherRequest.city := c |})
     = Some (error_reply 500 detail)
  /\ calls_of w (post_weather {| WeatherRequest.city := c |}) = []
  /\ contains detail "OPENWEATHER_API_KEY".
Proof.
  intros H detail.
  assert (Ht : truthy (environ w "OPENWEATHER_API_KEY") = None)
    by (destruct H as [-> | ->]; reflexivity).
  unfold reply_of, calls_of, get_weather, post_weather. cbn [run].
  rewrite Ht. cbn. repeat split.
  exists "", " is not configured on the server.". reflexivity.
Qed.

Lemma missing_api_key_is_500_witness :
  reply_of (world None RequestError) (get_weather (Some "London"))
  = Some (error_reply 500 "OPENWEATHER_API_KEY is not configured on the server.")
  /\ calls_of (world None RequestError) (get_weather (Some "London")) = []
  /\ reply_of (world (Some "") RequestError)
       (post_weather {| WeatherRequest.city := None |})
     = Some (error_reply 500 "OPENWEATHER_API_KEY is not configured on the server.").
Proof.
  destruct (missing_api_key_is_500 (world None RequestError) (Some "London"))
    as (H1 & H2 & _); [left; reflexivity |].
  destruct (missing_api_key_is_500 (world (Some "") RequestError) None)
    as (_ & _ & H3 & _); [right; reflexivity |].
  repeat split; assumption.
Defined.

(** The city check of [post_weather], which comes second. When the API key
    is configured, a POST whose city is empty or whitespace-only is answered
    with HTTP 400 and a message that contains "city", and no outbound call
    is made. *)
Theorem post_blank_city_is_400 w key c :
  configured w key ->
  blank c ->
  let detail := "Missing required field: city." in
  reply_of w (post_weather {| WeatherRequest.city := Some c |})
  = Some (error_reply 400 detail)
  /\ calls_of w (post_weather {| WeatherRequest.city := Some c |}) = []
  /\ contains detail "city".
Proof.
  intros Hk Hc detail.
  unfold reply_of, calls_of, post_weather. cbn [run WeatherRequest.city].
  rewrite (truthy_configured _ _ Hk).
  assert (Hs : strip match truthy (Some c) with Some c0 => c0 | None => "" end = "").
  { unfold truthy. destruct (String.eqb c ""); [reflexivity |].
    apply strip_empty_iff_blank, Hc. }
  rewrite Hs. cbn. repeat split.
  exists "Missing required field: ", ".". reflexivity.
Qed.

Lemma post_blank_city_is_400_witness :
  reply_of (world (Some "test-key") RequestError)
    (post_weather {| WeatherRequest.city := Some "   " |})
  = Some (error_reply 400 "Missing required field: city.").
Proof.
  apply (post_blank_city_is_400 (world (Some "test-key") RequestError) "test-key" "   ").
  - split; [reflexivity | discriminate].
  - reflexivity.
Defined.

(** C3. The code departs from the claim: [post_weather] checks the key
    before the city, so with the API key unset a POST whose city is
    whitespace-only is answered with 500, not 400. The repository's test
    [test_missing_city_returns_400] expects the 400 without setting the
    key. *)
Lemma post_blank_city_without_key_is_500 :
  blank " "
  /\ reply_of (world None RequestError)
       (post_weather {| WeatherRequest.city := Some " " |})
     = Some (error_reply 500 "OPENWEATHER_API_KEY is not configured on the server.")
  /\ reply_of (world None RequestError)
       (post_weather {| WeatherRequest.city := Some " " |})
     <> Some (error_reply 400 "Missing required field: city.").
Proof.
  split; [reflexivity |]. split; [reflexivity |]. vm_compute. discriminate.
Qed.

(** C7, as the code has it. When the API key is configured, a GET whose
    city is empty or blank after trimming is rejected with HTTP 400 and a
    message that names the missing parameter, and no outbound call is made. *)
Theorem get_blank_city_is_400 w key c :
  configured w key ->
  strip c = "" ->
  let detail := "Missing required parameter: city." in
  reply_of w (get_weather (Some c)) = Some (error_reply 400 detail)
  /\ calls_of w (get_weather (Some c)) = []
  /\ contains detail "city".
Proof.
  intros Hk Hc detail.
  unfold reply_of, calls_of, get_weather. cbn [run].
  rewrite (truthy_configured _ _ Hk).
  assert (Hs : match truthy (Some c) with
               | None => raise (HTTPException 400 "Missing required parameter: city.")
               | Some city0 =>
                   if String.eqb (strip city0) "" then
                     raise (HTTPException 400 "Missing required parameter: city.")
                   else _fetch_current_weather (strip city0) key
               end
               = @raise WeatherResponse
                   (HTTPException 400 "Missing required parameter: city.")).
  { unfold truthy. destruct (String.eqb c ""); [reflexivity |].
    rewrite Hc. reflexivity. }
  rewrite Hs. cbn. repeat split.
  exists "Missing required parameter: ", ".". reflexivity.
Qed.

Lemma get_blank_city_is_400_witness :
  reply_of (world (Some "test-key") RequestError) (get_weather (Some "   "))
  = Some (error_reply 400 "Missing required parameter: city.").
Proof.
  apply (get_blank_city_is_400 (world (Some "test-key") RequestError) "test-key" "   ").
  - split; [reflexivity | discriminate].
  - reflexivity.
Defined.

(** C7 as stated fails: with the API key unset, a GET whose city is blank is
    answered with 500, not 400. The key is checked first. *)
Lemma get_blank_city_without_key_is_500 :
  strip " " = ""
  /\ reply_of (world None RequestError) (get_weather (Some " "))
     = Some (error_reply 500 "OPENWEATHER_API_KEY is not configured on the server.")
  /\ reply_of (world None RequestError) (get_weather (Some " "))
     <> Some (error_reply 400 "Missing required parameter: city.").
Proof.
  split; [reflexivity |]. split; [reflexivity |]. vm_compute. discriminate.
Qed.

(** C8. Past the API-key and blank-city checks, both handlers make exactly
    one outbound GET, whatever the network answers, to the current-weather
    URL with [q] the city trimmed of surrounding whitespace, [appid] the
    configured key and [units] "metric". *)
Theorem one_upstream_call w key c :
  configured w key ->
  strip c <> "" ->
  calls_of w (get_weather (Some c)) = [weather_query (strip c) key]
  /\ calls_of w (post_weather {| WeatherRequest.city := Some c |})
     = [weather_query (strip c) key]
  /\ url (weather_query (strip c) key) = OPENWEATHER_CURRENT_URL
  /\ params (weather_query (strip c) key)
     = [("q", strip c); ("appid", key); ("units", "metric")].
Proof.
  intros Hk Hc. unfold calls_of.
  rewrite (get_weather_delegates _ _ Hk _ Hc), (post_weather_delegates _ _ Hk _ Hc).
  rewrite fetch_run. repeat split.
Qed.

Lemma one_upstream_call_witness :
  calls_of (world (Some "test-key") RequestError) (get_weather (Some "  London "))
  = [weather_query "London" "test-key"].
Proof.
  apply (one_upstream_call (world (Some "test-key") RequestError)
           "test-key" "  London ").
  - split; [reflexivity | discriminate].
  - vm_compute. discriminate.
Defined.

(** C1, as the code has it. For every request with a city that is not blank
    and a configured API key, when the upstream answers, with a status below
    400, a payload whose
    [name] and [weather[0].description] are strings, whose [main.humidity]
    is an integer and whose [main.temp] is a finite float, or an integer of
    magnitude at most [2^53], both handlers answer 200 with the four fields
    of the payload: the city, the humidity and the description unchanged,
    and the temperature the same number. *)
Theorem well_formed_payload_is_projected
    w key c s payload name tv hum descr :
  configured w key ->
  strip c <> "" ->
  answers w (Response {| status_code := s; json := Some payload |}) ->
  s < 400 ->
  field payload name_path = Some (PStr name) ->
  field payload temp_path = Some tv ->
  exact_number tv ->
  field payload humidity_path = Some (PInt hum) ->
  field payload description_path = Some (PStr descr) ->
  exists t,
    same_number tv t
    /\ reply_of w (get_weather (Some c))
       = Some {| status := 200;
                 body := WeatherJson {| city := name; temperature := t;
                                        humidity := hum;
                                        description := Text descr |} |}
    /\ reply_of w (post_weather {| WeatherRequest.city := Some c |})
       = Some {| status := 200;
                 body := WeatherJson {| city := name; temperature := t;
                                        humidity := hum;
                                        description := Text descr |} |}.
Proof.
  intros Hk Hc Hw Hs Hn Ht Hx Hh Hd.
  assert (Hf : exists t, py_float tv = Ok t /\ same_number tv t /\ finite t = true).
  { destruct tv; cbn in Hx; try contradiction.
    - destruct (float_of_int_exact n Hx) as (t & Hf & Hi).
      exists t. repeat split; [exact Hf | exact Hi |].
      destruct t; cbn in Hi; try contradiction; reflexivity.
    - exists f. repeat split. exact Hx. }
  destruct Hf as (t & Hf & Hsame & Hfin). exists t. split; [exact Hsame |].
  unfold reply_of.
  rewrite (get_weather_delegates _ _ Hk _ Hc), (post_weather_delegates _ _ Hk _ Hc).
  rewrite fetch_run, Hw. cbn [snd status_code json].
  destruct (Z.eqb_spec s 404); [lia |].
  destruct (Z.leb_spec 400 s); [lia |].
  rewrite normalize_steps, Hn, Ht, Hf, Hh, Hd. cbn.
  unfold weather_body. cbn [temperature]. rewrite Hfin.
  split; reflexivity.
Qed.

Lemma well_formed_payload_is_projected_witness :
  reply_of (world (Some "test-key")
              (Response {| status_code := 200; json := Some london_payload |}))
    (get_weather (Some "London"))
  = Some {| status := 200;
            body := WeatherJson {| city := "London"; temperature := f12_34;
                                   humidity := 81;
                                   description := Text "light rain" |} |}.
Proof.
  destruct (well_formed_payload_is_projected
              (world (Some "test-key")
                 (Response {| status_code := 200; json := Some london_payload |}))
              "test-key" "London" 200 london_payload
              "London" (PFloat f12_34) 81 "light rain")
    as (t & Ht & Hg & _).
  - split; [reflexivity | discriminate].
  - vm_compute. discriminate.
  - intros req. reflexivity.
  - lia.
  - reflexivity.
  - reflexivity.
  - reflexivity.
  - reflexivity.
  - reflexivity.
  - cbn in Ht. subst t. exact Hg.
Defined.

(** C1 as stated fails: an integer temperature beyond [2^53] is a number,
    yet the float returned for [9007199254740993] is [9007199254740992.0]. *)
Lemma large_integer_temperature_is_rounded :
  reply_of (world (Some "test-key")
              (Response {| status_code := 200;
                           json := Some (payload_of (PStr "London")
                                           (PInt 9007199254740993) (PInt 81)
                                           (PStr "light rain")) |}))
    (get_weather (Some "London"))
  = Some {| status := 200;
            body := WeatherJson
                      {| city := "London";
                         temperature := S754_finite false 4503599627370496 1;
                         humidity := 81; description := Text "light rain" |} |}
  /\ ~ same_number (PInt 9007199254740993) (S754_finite false 4503599627370496 1).
Proof.
  split; [vm_compute; reflexivity |]. cbn. lia.
Qed.

(* ================================================================== *)
(** * The health route *)
(* ================================================================== *)

(** C9, as the code has it. The health check is registered on the path "/":
    a GET on it takes no input and is answered with HTTP 200 and the body
    [{"message": "Healthy"}]. *)
Theorem health_check_is_served_on_root :
  resolve "GET" "/" = Routed health_check_endpoint
  /\ serve_plain "GET" "/"
     = Some {| status := 200; body := ObjectJson [("message", "Healthy")] |}.
Proof. split; reflexivity. Qed.

(** C9 as stated fails: no route has the path "/health"; a GET on it is
    answered with 404. *)
Lemma health_path_is_not_found :
  resolve "GET" "/health" = NotFound
  /\ serve_plain "GET" "/health"
     = Some {| status := 404; body := ObjectJson [("detail", "Not Found")] |}
  /\ serve_plain "GET" "/health"
     <> Some {| status := 200; body := ObjectJson [("message", "Healthy")] |}.
Proof.
  split; [reflexivity |]. split; [reflexivity |]. vm_compute. discriminate.
Qed.

(* ================================================================== *)
(** * The scenarios of [tests/test_weather_endpoint.py] *)
(* ================================================================== *)

(** The tests replace [httpx.AsyncClient] by a client that returns one
    fixed response or raises [httpx.RequestError], and set or delete
    [OPENWEATHER_API_KEY]: a [world]. *)

Example test_get_weather_success :
  reply_of (world (Some "test-key")
              (Response {| status_code := 200; json := Some london_payload |}))
    (get_weather (Some "London"))
  = Some {| status := 200;
            body := WeatherJson {| city := "London"; temperature := f12_34;
                                   humidity := 81;
                                   description := Text "light rain" |} |}.
Proof. reflexivity. Qed.

Example test_missing_api_key_returns_500 :
  reply_of (world None RequestError) (get_weather (Some "London"))
  = Some (error_reply 500 "OPENWEATHER_API_KEY is not configured on the server.").
Proof. reflexivity. Qed.

Example test_city_not_found_returns_404 :
  reply_of (world (Some "test-key")
              (Response {| status_code := 404;
                           json := Some (PDict [("cod", PStr "404");
                                                ("message", PStr "city not found")]) |}))
    (get_weather (Some "NoSuchCity"))
  = Some (error_reply 404 "City not found.").
Proof. reflexivity. Qed.

Example test_upstream_network_error_returns_502 :
  reply_of (world (Some "test-key") RequestError) (get_weather (Some "London"))
  = Some (error_reply 502 "Failed to reach OpenWeatherMap.").
Proof. reflexivity. Qed.

(** [test_missing_city_returns_400] posts [{"city": ""}]. The handler's own
    answer to that city, once it is called with the key configured: *)
Example post_empty_city_in_handler :
  reply_of (world (Some "test-key") RequestError)
    (post_weather {| WeatherRequest.city := Some "" |})
  = Some (error_reply 400 "Missing required field: city.").
Proof. reflexivity. Qed.

(* ================================================================== *)
(** * Trimmed text *)
(* ================================================================== *)

Lemma lstrip_head l c r : lstrip l = c :: r -> isspace c = false.
Proof.
  induction l as [| a l IH]; cbn; [discriminate |].
  destruct (isspace a) eqn:E; [exact IH |]. intros [= <- _]. exact E.
Qed.

Lemma lstrip_fixed l :
  (forall c, hd_error l = Some c -> isspace c = false) -> lstrip l = l.
Proof.
  destruct l as [| a l]; [reflexivity |]. cbn. intros H.
  rewrite (H a eq_refl). reflexivity.
Qed.

Lemma lstrip_keeps_last a c :
  isspace c = false -> lstrip (a ++ [c]) = lstrip a ++ [c].
Proof.
  intros Hc. induction a as [| x a IH]; cbn; [rewrite Hc; reflexivity |].
  destruct (isspace x); [exact IH | reflexivity].
Qed.

Lemma rstrip_cons c l : isspace c = false -> rstrip (c :: l) = c :: rstrip l.
Proof.
  intros Hc. unfold rstrip. cbn [rev].
  rewrite (lstrip_keeps_last _ _ Hc), rev_app_distr. reflexivity.
Qed.

(** What [strip] returns starts and ends with text. *)
Lemma strip_chars_unpadded l :
  let t := rstrip (lstrip l) in
  (forall c, hd_error t = Some c -> isspace c = false)
  /\ (forall c, hd_error (rev t) = Some c -> isspace c = false).
Proof.
  cbv zeta. split.
  - destruct (lstrip l) as [| a r] eqn:E; [cbn; discriminate |].
    pose proof (lstrip_head _ _ _ E) as Ha.
    rewrite (rstrip_cons _ _ Ha). cbn. intros c [= <-]. exact Ha.
  - unfold rstrip. rewrite rev_involutive.
    intros c Hc. destruct (lstrip (rev (lstrip l))) as [| a r] eqn:E;
      [discriminate |].
    cbn in Hc. injection Hc as <-. exact (lstrip_head _ _ _ E).
Qed.

Lemma strip_unpadded s : unpadded (strip s).
Proof.
  unfold unpadded, strip. rewrite list_ascii_of_string_of_list_ascii.
  apply strip_chars_unpadded.
Qed.

Lemma unpadded_strip_fixed s : unpadded s -> strip s = s.
Proof.
  intros [Hh Hl]. unfold strip.
  rewrite (lstrip_fixed _ Hh). unfold rstrip.
  rewrite (lstrip_fixed _ Hl), rev_involutive.
  apply string_of_list_ascii_of_string.
Qed.

Lemma strip_idempotent s : strip (strip s) = strip s.
Proof. apply unpadded_strip_fixed, strip_unpadded. Qed.

(* ================================================================== *)
(** * The handlers, decision by decision *)
(* ================================================================== *)

Lemma get_weather_run w oc :
  run w (get_weather oc) [] =
  match truthy (environ w "OPENWEATHER_API_KEY") with
  | None => ([], Err key_not_configured)
  | Some key =>
      match checked_city oc with
      | None => ([], Err (HTTPException 400 "Missing required parameter: city."))
      | Some q => run w (_fetch_current_weather q key) []
      end
  end.
Proof.
  unfold get_weather. cbn [run].
  destruct (truthy (environ w "OPENWEATHER_API_KEY")) as [key |]; [| reflexivity].
  destruct oc as [c |]; [| reflexivity]. cbn [truthy checked_city].
  destruct (String.eqb_spec c "") as [-> | _]; [reflexivity |].
  destruct (String.eqb (strip c) ""); reflexivity.
Qed.

Lemma post_weather_run w oc :
  run w (post_weather {| WeatherRequest.city := oc |}) [] =
  match truthy (environ w "OPENWEATHER_API_KEY") with
  | None => ([], Err key_not_configured)
  | Some key =>
      match checked_city oc with
      | None => ([], Err (HTTPException 400 "Missing required field: city."))
      | Some q => run w (_fetch_current_weather q key) []
      end
  end.
Proof.
  unfold post_weather. cbn [run WeatherRequest.city].
  destruct (truthy (environ w "OPENWEATHER_API_KEY")) as [key |]; [| reflexivity].
  destruct oc as [c |]; [| reflexivity]. cbn [truthy checked_city].
  destruct (String.eqb_spec c "") as [-> | _]; [reflexivity |].
  destruct (String.eqb (strip c) ""); reflexivity.
Qed.

Lemma checked_city_clean oc q :
  checked_city oc = Some q ->
  exists c, oc = Some c /\ q = strip c /\ q <> "".
Proof.
  destruct oc as [c |]; [| discriminate]. cbn.
  destruct (String.eqb_spec (strip c) "") as [| Hne]; [discriminate |].
  intros [= <-]. exists c. auto.
Qed.

Lemma truthy_some x key : truthy x = Some key -> x = Some key /\ key <> "".
Proof.
  destruct x as [s |]; [| discriminate]. cbn.
  destruct (String.eqb_spec s "") as [| Hne]; [discriminate |].
  intros [= <-]. auto.
Qed.

Lemma fetch_run_outcome w q key :
  run w (_fetch_current_weather q key) []
  = ([weather_query q key], outcome_of (network w 0%nat (weather_query q key))).
Proof. rewrite fetch_run. reflexivity. Qed.

Lemma truthy_none_iff w :
  truthy (environ w "OPENWEATHER_API_KEY") = None <-> no_key w.
Proof.
  unfold no_key. destruct (environ w "OPENWEATHER_API_KEY") as [s |]; cbn.
  - destruct (String.eqb_spec s "") as [-> | Hne]; split; auto; try discriminate.
    intros [H | [= H]]; [discriminate | contradiction].
  - split; auto.
Qed.

Lemma checked_city_none_iff oc : checked_city oc = None <-> no_city oc.
Proof.
  unfold no_city. destruct oc as [c |]; cbn; [| split; auto].
  destruct (String.eqb_spec (strip c) "") as [He | Hne]; split; auto.
  - intros _. right. exists c. split; [reflexivity |].
    apply strip_empty_iff_blank, He.
  - discriminate.
  - intros [H | (c' & [= <-] & Hb)]; [discriminate |].
    exfalso. apply Hne, strip_empty_iff_blank, Hb.
Qed.

(** The replies the upstream client's decision leads to. *)
Lemma outcome_reply got r :
  respond (outcome_of got) = Some r ->
  (exists resp payload wr,
      got = Response resp /\ status_code resp < 400
      /\ json resp = Some payload
      /\ _normalize_openweather_payload payload = Ok wr
      /\ r = {| status := 200; body := weather_body wr |})
  \/ (r = error_reply 404 "City not found."
      /\ exists resp, got = Response resp /\ status_code resp = 404)
  \/ (exists d, r = error_reply 502 d /\ contains d "OpenWeatherMap")
  \/ (r = {| status := 500; body := TextBody "Internal Server Error" |}
      /\ exists resp payload,
           got = Response resp /\ status_code resp < 400
           /\ json resp = Some payload
           /\ (_normalize_openweather_payload payload = Err ValidationError
               \/ _normalize_openweather_payload payload = Err OverflowError)).
Proof.
  destruct got as [| resp]; cbn [outcome_of].
  { intros [= <-]. right; right; left.
    exists "Failed to reach OpenWeatherMap.". split; [reflexivity |].
    exists "Failed to reach ", ".". reflexivity. }
  destruct (Z.eqb_spec (status_code resp) 404) as [E | E].
  { intros [= <-]. right; left. split; [reflexivity |]. exists resp. auto. }
  destruct (Z.leb_spec 400 (status_code resp)) as [Hs | Hs].
  { intros [= <-]. right; right; left. eexists. split; [reflexivity |].
    exists "", (" returned an error (status "
                  ++ str_of_int (status_code resp) ++ ").")%string.
    reflexivity. }
  destruct (json resp) as [payload |] eqn:Ej.
  2:{ intros [= <-]. right; right; left. eexists. split; [reflexivity |].
      exists "", " returned invalid JSON.". reflexivity. }
  destruct (normalize_outcomes payload) as [[wr Hr] | [Hr | [Hr | Hr]]];
    rewrite Hr; cbn [respond].
  - intros [= <-]. left. exists resp, payload, wr. auto.
  - intros [= <-]. right; right; left. eexists. split; [reflexivity |].
    exists "Upstream response format from ", " was unexpected.". reflexivity.
  - intros [= <-]. right; right; right. split; [reflexivity |].
    exists resp, payload. auto.
  - intros [= <-]. right; right; right. split; [reflexivity |].
    exists resp, payload. auto.
Qed.


(** The cases of a handler's run: [bad_request] is the handler's own 400. *)
Lemma handler_cases w oc (p : Prog WeatherResponse) bad_request :
  run w p [] =
    match truthy (environ w "OPENWEATHER_API_KEY") with
    | None => ([], Err key_not_configured)
    | Some key =>
        match checked_city oc with
        | None => ([], Err (HTTPException 400 bad_request))
        | Some q => run w (_fetch_current_weather q key) []
        end
    end ->
  (no_key w /\ run w p [] = ([], Err key_not_configured))
  \/ (exists key, configured w key /\ no_city oc
                  /\ run w p [] = ([], Err (HTTPException 400 bad_request)))
  \/ (exists key c,
         configured w key /\ oc = Some c /\ strip c <> ""
         /\ run w p []
            = ([weather_query (strip c) key],
               outcome_of (network w 0%nat (weather_query (strip c) key)))).
Proof.
  intros ->.
  destruct (truthy (environ w "OPENWEATHER_API_KEY")) as [key |] eqn:Ek.
  2:{ left. split; [apply truthy_none_iff, Ek | reflexivity]. }
  apply truthy_some in Ek. right.
  destruct (checked_city oc) as [q |] eqn:Ec.
  - right. destruct (checked_city_clean _ _ Ec) as (c & -> & -> & Hne).
    exists key, c. rewrite fetch_run_outcome. auto.
  - left. exists key. split; [exact Ek |].
    split; [apply checked_city_none_iff, Ec | reflexivity].
Qed.

Lemma get_weather_cases w oc :
  (no_key w /\ run w (get_weather oc) [] = ([], Err key_not_configured))
  \/ (exists key, configured w key /\ no_city oc
        /\ run w (get_weather oc) []
           = ([], Err (HTTPException 400 "Missing required parameter: city.")))
  \/ (exists key c,
         configured w key /\ oc = Some c /\ strip c <> ""
         /\ run w (get_weather oc) []
            = ([weather_query (strip c) key],
               outcome_of (network w 0%nat (weather_query (strip c) key)))).
Proof. apply handler_cases, get_weather_run. Qed.

Lemma post_weather_cases w oc :
  (no_key w
   /\ run w (post_weather {| WeatherRequest.city := oc |}) []
      = ([], Err key_not_configured))
  \/ (exists key, configured w key /\ no_city oc
        /\ run w (post_weather {| WeatherRequest.city := oc |}) []
           = ([], Err (HTTPException 400 "Missing required field: city.")))
  \/ (exists key c,
         configured w key /\ oc = Some c /\ strip c <> ""
         /\ run w (post_weather {| WeatherRequest.city := oc |}) []
            = ([weather_query (strip c) key],
               outcome_of (network w 0%nat (weather_query (strip c) key)))).
Proof. apply handler_cases, post_weather_run. Qed.

(** A weather handler: one of the two route functions on a city. *)
Lemma handlers_cases w oc p :
  p = get_weather oc \/ p = post_weather {| WeatherRequest.city := oc |} ->
  (no_key w /\ run w p [] = ([], Err key_not_configured))
  \/ (exists key detail, configured w key /\ no_city oc
        /\ run w p [] = ([], Err (HTTPException 400 detail))
        /\ contains detail "city")
  \/ (exists key c,
         configured w key /\ oc = Some c /\ strip c <> ""
         /\ run w p []
            = ([weather_query (strip c) key],
               outcome_of (network w 0%nat (weather_query (strip c) key)))).
Proof.
  intros [-> | ->].
  - destruct (get_weather_cases w oc) as [H | [(key & Hk & Hc & Hr) | H]]; auto.
    right; left. exists key, "Missing required parameter: city.".
    split; [exact Hk |]. split; [exact Hc |]. split; [exact Hr |].
    exists "Missing required parameter: ", ".". reflexivity.
  - destruct (post_weather_cases w oc) as [H | [(key & Hk & Hc & Hr) | H]]; auto.
    right; left. exists key, "Missing required field: city.".
    split; [exact Hk |]. split; [exact Hc |]. split; [exact Hr |].
    exists "Missing required field: ", ".". reflexivity.
Qed.

(* ================================================================== *)
(** * The two handlers side by side *)
(* ================================================================== *)

(** X1. On the same city and in the same world, GET and POST make the same
    outbound calls and give the same reply, except that their 400 for an
    absent or blank city names a "parameter" in one and a "field" in the
    other. *)
Theorem handlers_agree w oc :
  calls_of w (get_weather oc)
  = calls_of w (post_weather {| WeatherRequest.city := oc |})
  /\ (reply_of w (get_weather oc)
      = reply_of w (post_weather {| WeatherRequest.city := oc |})
      \/ (no_city oc
          /\ reply_of w (get_weather oc)
             = Some (error_reply 400 "Missing required parameter: city.")
          /\ reply_of w (post_weather {| WeatherRequest.city := oc |})
             = Some (error_reply 400 "Missing required field: city."))).
Proof.
  unfold calls_of, reply_of. rewrite get_weather_run, post_weather_run.
  destruct (truthy (environ w "OPENWEATHER_API_KEY")) as [key |];
    [| split; [reflexivity | left; reflexivity]].
  destruct (checked_city oc) as [q |] eqn:Ec;
    [split; [reflexivity | left; reflexivity] |].
  split; [reflexivity |]. right.
  split; [apply checked_city_none_iff, Ec | split; reflexivity].
Qed.

(** X2. Whitespace around the city never matters: two cities that are equal
    once trimmed are handled identically, calls and result, by both
    handlers; in particular a city and its trimmed form are. *)
Theorem surrounding_whitespace_is_ignored w c1 c2 :
  strip c1 = strip c2 ->
  run w (get_weather (Some c1)) [] = run w (get_weather (Some c2)) []
  /\ run w (post_weather {| WeatherRequest.city := Some c1 |}) []
     = run w (post_weather {| WeatherRequest.city := Some c2 |}) []
  /\ run w (get_weather (Some (strip c1))) [] = run w (get_weather (Some c1)) [].
Proof.
  intros H.
  assert (Hc : checked_city (Some c1) = checked_city (Some c2))
    by (cbn; rewrite H; reflexivity).
  assert (Hs : checked_city (Some (strip c1)) = checked_city (Some c1))
    by (cbn; rewrite strip_idempotent; reflexivity).
  rewrite !get_weather_run, !post_weather_run, Hs, Hc.
  split; [reflexivity | split; reflexivity].
Qed.

Lemma surrounding_whitespace_is_ignored_witness :
  run (world (Some "test-key") RequestError) (get_weather (Some "  London ")) []
  = run (world (Some "test-key") RequestError) (get_weather (Some "London")) [].
Proof.
  apply (surrounding_whitespace_is_ignored
           (world (Some "test-key") RequestError) "  London " "London").
  reflexivity.
Defined.

(** X3. Every outbound call a handler makes goes to the current-weather
    URL with exactly the parameters [q], [appid] and [units]: [q] is the
    city trimmed, never empty and with no whitespace at either end; [appid]
    is the value of [OPENWEATHER_API_KEY], never empty; [units] is
    "metric". *)
Theorem outbound_query_is_clean w oc p req :
  handles p oc ->
  In req (calls_of w p) ->
  exists c key,
    oc = Some c
    /\ environ w "OPENWEATHER_API_KEY" = Some key
    /\ url req = "https://api.openweathermap.org/data/2.5/weather"
    /\ params req = [("q", strip c); ("appid", key); ("units", "metric")]
    /\ strip c <> "" /\ unpadded (strip c) /\ key <> "".
Proof.
  intros Hp Hin. unfold calls_of in Hin.
  destruct (handlers_cases w oc p Hp)
    as [[_ Hr] | [(key & d & _ & _ & Hr & _) | (key & c & Hk & -> & Hne & Hr)]];
    rewrite Hr in Hin; cbn in Hin; try contradiction.
  destruct Hin as [<- | []]. destruct Hk as [Henv Hkey].
  exists c, key. repeat split; auto; apply strip_unpadded.
Qed.

Lemma outbound_query_is_clean_witness :
  exists c key,
    Some " New York " = Some c
    /\ environ (world (Some "test-key") RequestError) "OPENWEATHER_API_KEY" = Some key
    /\ url (weather_query "New York" "test-key")
       = "https://api.openweathermap.org/data/2.5/weather"
    /\ params (weather_query "New York" "test-key")
       = [("q", strip c); ("appid", key); ("units", "metric")]
    /\ strip c <> "" /\ unpadded (strip c) /\ key <> "".
Proof.
  apply (outbound_query_is_clean (world (Some "test-key") RequestError)
           (Some " New York ") (get_weather (Some " New York "))
           (weather_query "New York" "test-key")).
  - left. reflexivity.
  - left. reflexivity.
Defined.

(** X4. A handler makes at most one outbound call, and makes none exactly
    when the API key is unset or empty or the city is absent or blank. *)
Theorem call_made_iff_checks_pass w oc p :
  handles p oc ->
  (List.length (calls_of w p) <= 1)%nat
  /\ (calls_of w p = [] <-> no_key w \/ no_city oc).
Proof.
  intros Hp. unfold calls_of.
  destruct (handlers_cases w oc p Hp)
    as [[Hk Hr] | [(key & d & Hk & Hc & Hr & _) | (key & c & Hk & -> & Hne & Hr)]];
    rewrite Hr; cbn [fst List.length].
  - split; [lia | split; auto].
  - split; [lia | split; auto].
  - split; [lia |]. split; [discriminate |].
    intros [Hnk | [Hn | (c' & [= <-] & Hb)]].
    + exfalso. apply truthy_none_iff in Hnk.
      rewrite (truthy_configured _ _ Hk) in Hnk. discriminate.
    + discriminate.
    + exfalso. apply Hne, strip_empty_iff_blank, Hb.
Qed.

Lemma call_made_iff_checks_pass_witness :
  (List.length (calls_of (world (Some "test-key") RequestError)
                  (get_weather (Some "London"))) <= 1)%nat.
Proof.
  apply (call_made_iff_checks_pass (world (Some "test-key") RequestError)
           (Some "London") (get_weather (Some "London"))).
  left. reflexivity.
Defined.

(** X11. A handler reads nothing of its world but the variable
    [OPENWEATHER_API_KEY] and the answer to its first outbound call: in two
    worlds that agree on these, it makes the same calls and gives the same
    result. *)
Theorem handler_reads_key_and_first_answer w1 w2 oc p :
  handles p oc ->
  environ w1 "OPENWEATHER_API_KEY" = environ w2 "OPENWEATHER_API_KEY" ->
  (forall req, network w1 0%nat req = network w2 0%nat req) ->
  run w1 p [] = run w2 p [].
Proof.
  intros [-> | ->] He Hn;
    rewrite ?get_weather_run, ?post_weather_run, He;
    destruct (truthy (environ w2 "OPENWEATHER_API_KEY")); try reflexivity;
    destruct (checked_city oc); try reflexivity;
    rewrite !fetch_run_outcome, Hn; reflexivity.
Qed.

Lemma handler_reads_key_and_first_answer_witness :
  run {| environ := fun name =>
           if String.eqb name "OPENWEATHER_API_KEY" then Some "test-key"
           else Some "other";
         network := fun n _ =>
           match n with
           | O => Response {| status_code := 200; json := Some london_payload |}
           | S _ => RequestError
           end |}
    (get_weather (Some "London")) []
  = run (world (Some "test-key")
           (Response {| status_code := 200; json := Some london_payload |}))
      (get_weather (Some "London")) [].
Proof.
  apply (handler_reads_key_and_first_answer _ _ (Some "London")).
  - left. reflexivity.
  - reflexivity.
  - intros req. reflexivity.
Defined.

(* ================================================================== *)
(** * Where each reply comes from *)
(* ================================================================== *)

Lemma handler_reply_cases w oc p r :
  handles p oc ->
  reply_of w p = Some r ->
  (no_key w /\ calls_of w p = []
   /\ r = error_reply 500 "OPENWEATHER_API_KEY is not configured on the server.")
  \/ (exists key detail,
         configured w key /\ no_city oc /\ calls_of w p = []
         /\ r = error_reply 400 detail /\ contains detail "city")
  \/ (exists key c,
         configured w key /\ oc = Some c /\ strip c <> ""
         /\ calls_of w p = [weather_query (strip c) key]
         /\ respond (outcome_of (network w 0%nat (weather_query (strip c) key)))
            = Some r).
Proof.
  intros Hp. unfold reply_of, calls_of.
  destruct (handlers_cases w oc p Hp)
    as [[Hk Hr] | [(key & d & Hk & Hc & Hr & Hd) | (key & c & Hk & -> & Hne & Hr)]];
    rewrite Hr; cbn [fst snd].
  - intros [= <-]. left. auto.
  - intros [= <-]. right; left. exists key, d. auto 6.
  - intros H. right; right. exists key, c. auto 6.
Qed.



(** X6. A handler answers 404 only for an upstream 404: the reply is then
    "City not found.", one outbound call was made, and its answer had status
    404. *)
Theorem not_found_comes_from_upstream w oc p r :
  handles p oc ->
  reply_of w p = Some r ->
  status r = 404 ->
  r = error_reply 404 "City not found."
  /\ exists req resp,
       calls_of w p = [req]
       /\ network w 0%nat req = Response resp
       /\ status_code resp = 404.
Proof.
  intros Hp Hr Hs.
  destruct (handler_reply_cases w oc p r Hp Hr)
    as [(_ & _ & ->) | [(key & d & _ & _ & _ & -> & _) | (key & c & _ & _ & _ & Hc & Ho)]];
    [discriminate Hs | discriminate Hs |].
  destruct (outcome_reply _ _ Ho)
    as [(resp & pl & wr & _ & _ & _ & _ & ->) | [[-> (resp & Hg & H4)] | [(d & -> & _) | [-> _]]]];
    try discriminate Hs.
  split; [reflexivity |]. eauto.
Qed.

Lemma not_found_comes_from_upstream_witness :
  error_reply 404 "City not found." = error_reply 404 "City not found."
  /\ exists req resp,
       calls_of (world (Some "test-key")
                   (Response {| status_code := 404; json := None |}))
         (get_weather (Some "Atlantis")) = [req]
       /\ network (world (Some "test-key")
                     (Response {| status_code := 404; json := None |})) 0%nat req
          = Response resp
       /\ status_code resp = 404.
Proof.
  apply (not_found_comes_from_upstream
           (world (Some "test-key") (Response {| status_code := 404; json := None |}))
           (Some "Atlantis") (get_weather (Some "Atlantis"))).
  - left. reflexivity.
  - reflexivity.
  - reflexivity.
Defined.

(** X7. A handler answers 502 only after it called the upstream, and every
    502 names the provider: its detail contains "OpenWeatherMap". *)
Theorem bad_gateway_names_provider w oc p r :
  handles p oc ->
  reply_of w p = Some r ->
  status r = 502 ->
  exists detail,
    r = error_reply 502 detail
    /\ contains detail "OpenWeatherMap"
    /\ List.length (calls_of w p) = 1%nat.
Proof.
  intros Hp Hr Hs.
  destruct (handler_reply_cases w oc p r Hp Hr)
    as [(_ & _ & ->) | [(key & d & _ & _ & _ & -> & _) | (key & c & _ & _ & _ & Hc & Ho)]];
    [discriminate Hs | discriminate Hs |].
  destruct (outcome_reply _ _ Ho)
    as [(resp & pl & wr & _ & _ & _ & _ & ->) | [[-> _] | [(d & -> & Hd) | [-> _]]]];
    try discriminate Hs.
  exists d. rewrite Hc. auto.
Qed.

Lemma bad_gateway_names_provider_witness :
  exists detail,
    error_reply 502 "OpenWeatherMap returned an error (status 503)."
    = error_reply 502 detail
    /\ contains detail "OpenWeatherMap"
    /\ List.length
         (calls_of (world (Some "test-key")
                      (Response {| status_code := 503; json := None |}))
            (post_weather {| WeatherRequest.city := Some "London" |})) = 1%nat.
Proof.
  apply (bad_gateway_names_provider
           (world (Some "test-key") (Response {| status_code := 503; json := None |}))
           (Some "London") (post_weather {| WeatherRequest.city := Some "London" |})).
  - right. reflexivity.
  - reflexivity.
  - reflexivity.
Defined.

(** X8. A handler answers 200 only with what the upstream sent: one
    outbound call was made, its answer had a status below 400 and a JSON
    body, the normaliser accepted that payload, and the body of the reply is
    the JSON form of its result: the four members, the temperature written
    [null] when it is not finite. *)
Theorem success_comes_from_upstream w oc p r :
  handles p oc ->
  reply_of w p = Some r ->
  status r = 200 ->
  exists req resp payload wr,
    calls_of w p = [req]
    /\ network w 0%nat req = Response resp
    /\ status_code resp < 400
    /\ json resp = Some payload
    /\ _normalize_openweather_payload payload = Ok wr
    /\ r = {| status := 200; body := weather_body wr |}.
Proof.
  intros Hp Hr Hs.
  destruct (handler_reply_cases w oc p r Hp Hr)
    as [(_ & _ & ->) | [(key & d & _ & _ & _ & -> & _) | (key & c & _ & _ & _ & Hc & Ho)]];
    [discriminate Hs | discriminate Hs |].
  destruct (outcome_reply _ _ Ho)
    as [(resp & pl & wr & Hg & Hlt & Hj & Hn & ->) | [[-> _] | [(d & -> & _) | [-> _]]]];
    try discriminate Hs.
  exists (weather_query (strip c) key), resp, pl, wr. auto 7.
Qed.

Lemma success_comes_from_upstream_witness :
  exists req resp payload wr,
    calls_of (world (Some "test-key")
                (Response {| status_code := 200;
                             json := Some (payload_of (PStr "London")
                                             (PFloat S754_nan) (PInt 81)
                                             (PStr "light rain")) |}))
      (get_weather (Some "London")) = [req]
    /\ network (world (Some "test-key")
                  (Response {| status_code := 200;
                               json := Some (payload_of (PStr "London")
                                               (PFloat S754_nan) (PInt 81)
                                               (PStr "light rain")) |}))
         0%nat req = Response resp
    /\ status_code resp < 400
    /\ json resp = Some payload
    /\ _normalize_openweather_payload payload = Ok wr
    /\ {| status := 200;
          body := WeatherJsonNull "London" 81 (Text "light rain") |}
       = {| status := 200; body := weather_body wr |}.
Proof.
  apply (success_comes_from_upstream
           (world (Some "test-key")
              (Response {| status_code := 200;
                           json := Some (payload_of (PStr "London")
                                           (PFloat S754_nan) (PInt 81)
                                           (PStr "light rain")) |}))
           (Some "London") (get_weather (Some "London"))).
  - left. reflexivity.
  - reflexivity.
  - reflexivity.
Defined.

(** X9. A handler answers 400 exactly when the API key is configured and
    the city is absent or blank; the message then contains "city". *)
Theorem bad_request_iff_no_city w oc p :
  handles p oc ->
  ((exists r, reply_of w p = Some r /\ status r = 400)
   <-> (exists key, configured w key) /\ no_city oc)
  /\ (forall r, reply_of w p = Some r -> status r = 400 ->
      exists detail, r = error_reply 400 detail /\ contains detail "city").
Proof.
  intros Hp. split; [split |].
  - intros (r & Hr & Hs).
    destruct (handler_reply_cases w oc p r Hp Hr)
      as [(_ & _ & ->) | [(key & d & Hk & Hc & _) | (key & c & _ & _ & _ & _ & Ho)]];
      [discriminate Hs | eauto |].
    destruct (outcome_reply _ _ Ho)
      as [(resp & pl & wr & _ & _ & _ & _ & ->) | [[-> _] | [(d & -> & _) | [-> _]]]];
      discriminate Hs.
  - intros [[key Hk] Hc]. unfold reply_of.
    destruct (handlers_cases w oc p Hp)
      as [[Hnk _] | [(key' & d & _ & _ & Hr & _) | (key' & c & _ & -> & Hne & _)]].
    + exfalso. apply truthy_none_iff in Hnk.
      rewrite (truthy_configured _ _ Hk) in Hnk. discriminate.
    + rewrite Hr. eexists. split; reflexivity.
    + exfalso. destruct Hc as [Hc | (c' & [= <-] & Hb)]; [discriminate |].
      apply Hne, strip_empty_iff_blank, Hb.
  - intros r Hr Hs.
    destruct (handler_reply_cases w oc p r Hp Hr)
      as [(_ & _ & ->) | [(key & d & _ & _ & _ & -> & Hd) | (key & c & _ & _ & _ & _ & Ho)]];
      [discriminate Hs | eauto |].
    destruct (outcome_reply _ _ Ho)
      as [(resp & pl & wr & _ & _ & _ & _ & ->) | [[-> _] | [(d & -> & _) | [-> _]]]];
      discriminate Hs.
Qed.

Lemma bad_request_iff_no_city_witness :
  exists r,
    reply_of (world (Some "test-key") RequestError) (get_weather None) = Some r
    /\ status r = 400.
Proof.
  apply (bad_request_iff_no_city (world (Some "test-key") RequestError)
           None (get_weather None)).
  - left. reflexivity.
  - split.
    + exists "test-key". split; [reflexivity | discriminate].
    + left. reflexivity.
Defined.

(** X10. The configuration error is the reply exactly when the API key is
    unset or empty: no other path of a handler gives that reply. *)
Theorem key_error_iff_no_key w oc p :
  handles p oc ->
  (reply_of w p
   = Some (error_reply 500 "OPENWEATHER_API_KEY is not configured on the server.")
   <-> no_key w).
Proof.
  intros Hp. split.
  - intros Hr.
    destruct (handler_reply_cases w oc p _ Hp Hr)
      as [(Hk & _) | [(key & d & _ & _ & _ & H & _) | (key & c & _ & _ & _ & _ & Ho)]];
      [exact Hk | discriminate H |].
    destruct (outcome_reply _ _ Ho)
      as [(resp & pl & wr & _ & _ & _ & _ & H) | [[H _] | [(d & H & _) | [H _]]]];
      discriminate H.
  - intros Hk. unfold reply_of.
    destruct (handlers_cases w oc p Hp)
      as [[_ Hr] | [(key & d & Hc & _) | (key & c & Hc & _)]].
    + rewrite Hr. reflexivity.
    + exfalso. apply truthy_none_iff in Hk.
      rewrite (truthy_configured _ _ Hc) in Hk. discriminate.
    + exfalso. apply truthy_none_iff in Hk.
      rewrite (truthy_configured _ _ Hc) in Hk. discriminate.
Qed.

Lemma key_error_iff_no_key_witness :
  reply_of (world (Some "") RequestError) (get_weather (Some "London"))
  = Some (error_reply 500 "OPENWEATHER_API_KEY is not configured on the server.").
Proof.
  apply (key_error_iff_no_key (world (Some "") RequestError)
           (Some "London") (get_weather (Some "London"))).
  - left. reflexivity.
  - right. reflexivity.
Defined.

(* ================================================================== *)
(** * The normaliser as a function of four fields *)
(* ================================================================== *)

(** X12. The normaliser reads nothing of a payload but [name],
    [main.temp], [main.humidity] and [weather[0].description]: two payloads
    with the same four fields (present or not) give the same result, so any
    other member of the upstream document is ignored. *)
Theorem normaliser_reads_four_fields p1 p2 :
  field p1 name_path = field p2 name_path ->
  field p1 temp_path = field p2 temp_path ->
  field p1 humidity_path = field p2 humidity_path ->
  field p1 description_path = field p2 description_path ->
  _normalize_openweather_payload p1 = _normalize_openweather_payload p2.
Proof.
  intros Hn Ht Hh Hd. rewrite !normalize_steps, Hn, Ht, Hh, Hd. reflexivity.
Qed.

Lemma normaliser_reads_four_fields_witness :
  _normalize_openweather_payload
    (PDict [ ("coord", PDict [("lon", PFloat f12_34)]);
             ("weather", PList [PDict [("id", PInt 500);
                                       ("description", PStr "light rain")];
                                PDict [("description", PStr "mist")]]);
             ("main", PDict [("temp", PFloat f12_34); ("pressure", PInt 1012);
                             ("humidity", PInt 81)]);
             ("name", PStr "London"); ("cod", PInt 200) ])
  = _normalize_openweather_payload london_payload.
Proof.
  apply normaliser_reads_four_fields; reflexivity.
Defined.

(** X13. The normaliser returns a response exactly when [name] is a string,
    [main.temp] is accepted by [float()], [main.humidity] by [int()], and
    [weather[0].description] is present; the response is then the name, the
    two coerced numbers and [str()] of the description. *)
Theorem normaliser_success_iff payload r :
  _normalize_openweather_payload payload = Ok r
  <-> exists name tv t hv h dv,
        extracted payload (PStr name) tv t hv h dv
        /\ r = {| city := name; temperature := t; humidity := h;
                  description := py_str dv |}.
Proof.
  rewrite normalize_steps. unfold extracted. split.
  - destruct (field payload name_path) as [c |]; [| discriminate].
    destruct (field payload temp_path) as [tv |]; [| discriminate].
    destruct (py_float tv) as [t | e] eqn:Ef;
      [| destruct (format_errors e); discriminate].
    destruct (field payload humidity_path) as [hv |]; [| discriminate].
    destruct (py_int hv) as [h | e] eqn:Ei;
      [| destruct (format_errors e); discriminate].
    destruct (field payload description_path) as [dv |]; [| discriminate].
    destruct c; cbn; try discriminate. intros [= <-].
    exists s, tv, t, hv, h, dv. repeat split; assumption.
  - intros (name & tv & t & hv & h & dv & (Hn & Ht & Hf & Hh & Hi & Hd) & ->).
    rewrite Hn, Ht, Hf, Hh, Hi, Hd. reflexivity.
Qed.

(** X14. Two exceptions escape the normaliser's [try] block.
    [ValidationError] is raised exactly when the four extractions succeed
    and [name] is not a string. [OverflowError] is raised exactly when
    [name] is present and the first failing step is a numeric coercion that
    overflows. No exception other than these and the 502 is raised. *)
Theorem normaliser_escapes payload :
  (_normalize_openweather_payload payload = Err ValidationError
   <-> exists c tv t hv h dv,
         extracted payload c tv t hv h dv /\ forall s, c <> PStr s)
  /\ (_normalize_openweather_payload payload = Err OverflowError
      <-> exists c tv,
            field payload name_path = Some c
            /\ field payload temp_path = Some tv
            /\ (py_float tv = Err OverflowError
                \/ exists t hv,
                     py_float tv = Ok t
                     /\ field payload humidity_path = Some hv
                     /\ py_int hv = Err OverflowError))
  /\ (forall e, _normalize_openweather_payload payload = Err e ->
      e = HTTPException 502
            "Upstream response format from OpenWeatherMap was unexpected."
      \/ e = ValidationError \/ e = OverflowError).
Proof.
  rewrite normalize_steps. unfold extracted. split; [| split].
  - split.
    + destruct (field payload name_path) as [c |]; [| discriminate].
      destruct (field payload temp_path) as [tv |]; [| discriminate].
      destruct (py_float tv) as [t | e] eqn:Ef.
      2:{ destruct (py_float_errors _ _ Ef) as [-> | [-> | ->]]; discriminate. }
      destruct (field payload humidity_path) as [hv |]; [| discriminate].
      destruct (py_int hv) as [h | e] eqn:Ei.
      2:{ destruct (py_int_errors _ _ Ei) as [-> | [-> | ->]]; discriminate. }
      destruct (field payload description_path) as [dv |]; [| discriminate].
      intros H. exists c, tv, t, hv, h, dv. split; [repeat split; assumption |].
      intros s ->. discriminate H.
    + intros (c & tv & t & hv & h & dv & (Hn & Ht & Hf & Hh & Hi & Hd) & Hc).
      rewrite Hn, Ht, Hf, Hh, Hi, Hd.
      destruct c; try reflexivity. exfalso. apply (Hc s). reflexivity.
  - split.
    + destruct (field payload name_path) as [c |]; [| discriminate].
      destruct (field payload temp_path) as [tv |]; [| discriminate].
      destruct (py_float tv) as [t | e] eqn:Ef.
      { destruct (field payload humidity_path) as [hv |]; [| discriminate].
        destruct (py_int hv) as [h | e] eqn:Ei.
        - destruct (field payload description_path) as [dv |]; [| discriminate].
          destruct c; discriminate.
        - destruct (py_int_errors _ _ Ei) as [-> | [-> | ->]]; try discriminate.
          intros _. exists c, tv. eauto 8. }
      destruct (py_float_errors _ _ Ef) as [-> | [-> | ->]]; try discriminate.
      intros _. exists c, tv. auto.
    + intros (c & tv & Hn & Ht & [Hf | (t & hv & Hf & Hh & Hi)]);
        rewrite Hn, Ht, Hf; [reflexivity |]. rewrite Hh, Hi. reflexivity.
  - intros e.
    destruct (field payload name_path) as [c |]; [| intros [= <-]; auto].
    destruct (field payload temp_path) as [tv |]; [| intros [= <-]; auto].
    destruct (py_float tv) as [t | e'] eqn:Ef.
    2:{ destruct (py_float_errors _ _ Ef) as [-> | [-> | ->]];
        intros [= <-]; auto. }
    destruct (field payload humidity_path) as [hv |]; [| intros [= <-]; auto].
    destruct (py_int hv) as [h | e'] eqn:Ei.
    2:{ destruct (py_int_errors _ _ Ei) as [-> | [-> | ->]];
        intros [= <-]; auto. }
    destruct (field payload description_path) as [dv |]; [| intros [= <-]; auto].
    destruct c; cbn; intros [= <-]; auto.
Qed.

(** An instance of [unexpected_format_only_if_shape_invalid]: the body of
    an upstream error, answered with a status below 400. *)
Lemma unexpected_format_only_if_shape_invalid_witness :
  shape_invalid (PDict [("cod", PStr "404"); ("message", PStr "city not found")]).
Proof.
  apply unexpected_format_only_if_shape_invalid. reflexivity.
Defined.

(* ================================================================== *)
(** * The route table *)
(* ================================================================== *)

Lemma path_matches_spec route path :
  path_matches route path = true
  <-> path = route \/ path = (route ++ newline)%string.
Proof.
  unfold path_matches. rewrite orb_true_iff, !String.eqb_eq. reflexivity.
Qed.

Lemma find_route_in rs method path e :
  find_route rs method path = Some e ->
  exists route, In (method, route, e) rs /\ path_matches route path = true.
Proof.
  induction rs as [| [[m p] e'] rs IH]; cbn; [discriminate |].
  destruct (path_matches p path) eqn:Ep; cbn.
  - destruct (String.eqb_spec m method) as [-> | _].
    + intros [= ->]. exists p. split; [left; reflexivity | exact Ep].
    + intros H. destruct (IH H) as (r & Hr & Hm). exists r. auto.
  - intros H. destruct (IH H) as (r & Hr & Hm). exists r. auto.
Qed.

Lemma resolve_routed method path e :
  resolve method path = Routed e ->
  exists route,
    In (method, route, e) routes
    /\ (path = route \/ path = (route ++ newline)%string).
Proof.
  unfold resolve.
  destruct (find_route routes method path) as [e' |] eqn:E.
  - intros [= <-]. destruct (find_route_in _ _ _ _ E) as (r & Hr & Hm).
    exists r. split; [exact Hr | apply path_matches_spec, Hm].
  - destruct (path_known routes path); [discriminate |].
    destruct (negb (String.eqb path "/") && path_known routes (toggle_slash path));
      discriminate.
Qed.

(** X15. Each of the three functions is reached through exactly one method
    and through the path of its decorator alone, as it is or followed by one
    newline, which the router's pattern lets through: [health_check] by GET
    on "/", [get_weather] by GET on "/weather", [post_weather] by POST on
    "/weather". *)
Theorem each_handler_has_one_route method path :
  (resolve method path = Routed health_check_endpoint
   <-> method = "GET" /\ (path = "/" \/ path = ("/" ++ newline)%string))
  /\ (resolve method path = Routed get_weather_endpoint
      <-> method = "GET"
          /\ (path = "/weather" \/ path = ("/weather" ++ newline)%string))
  /\ (resolve method path = Routed post_weather_endpoint
      <-> method = "POST"
          /\ (path = "/weather" \/ path = ("/weather" ++ newline)%string)).
Proof.
  split; [| split];
    (split; [| intros [-> [-> | ->]]; reflexivity]);
    intros H; apply resolve_routed in H; destruct H as (route & H & Hp);
    cbn in H;
    repeat (destruct H as [H | H];
            [first [discriminate H
                   | inversion H; subst route; split; [reflexivity | exact Hp]] |]);
    contradiction.
Qed.

(* ================================================================== *)
(** * Statuses below 400 *)
(* ================================================================== *)

(** X17. The upstream client tells statuses apart only at 400 and above: two
    answers with statuses below 400 (a 200, a 204, a 301) and the same body
    lead to the same result, which is the 502 of invalid JSON when the body
    is not JSON and the normaliser's result on the payload otherwise. *)
Theorem status_below_400_is_not_examined w1 w2 city key s1 s2 j :
  answers w1 (Response {| status_code := s1; json := j |}) ->
  answers w2 (Response {| status_code := s2; json := j |}) ->
  s1 < 400 -> s2 < 400 ->
  snd (run w1 (_fetch_current_weather city key) [])
  = snd (run w2 (_fetch_current_weather city key) [])
  /\ snd (run w1 (_fetch_current_weather city key) [])
     = match j with
       | None => Err (HTTPException 502 "OpenWeatherMap returned invalid JSON.")
       | Some payload => _normalize_openweather_payload payload
       end.
Proof.
  intros H1 H2 Hs1 Hs2. rewrite !fetch_run, H1, H2. cbn [snd status_code json].
  destruct (Z.eqb_spec s1 404); [lia |]. destruct (Z.eqb_spec s2 404); [lia |].
  destruct (Z.leb_spec 400 s1); [lia |]. destruct (Z.leb_spec 400 s2); [lia |].
  split; reflexivity.
Qed.

Lemma status_below_400_is_not_examined_witness :
  snd (run (world (Some "test-key")
              (Response {| status_code := 301; json := Some london_payload |}))
         (_fetch_current_weather "London" "test-key") [])
  = snd (run (world (Some "test-key")
                (Response {| status_code := 200; json := Some london_payload |}))
           (_fetch_current_weather "London" "test-key") []).
Proof.
  apply (status_below_400_is_not_examined
           (world (Some "test-key")
              (Response {| status_code := 301; json := Some london_payload |}))
           (world (Some "test-key")
              (Response {| status_code := 200; json := Some london_payload |}))
           "London" "test-key" 301 200 (Some london_payload)).
  - intros req. reflexivity.
  - intros req. reflexivity.
  - lia.
  - lia.
Defined.
